(** * SignTracking: notification fan-out, client notification store,
      signature tracking and document creation

    A shallow embedding of the parts of the SignTracking repository that
    its specification makes testable statements about:

    - [Sql]: the trigger and function layer of [supabase_schema.sql]
      (audience computation and notification inserts);
    - [Push]: the [push_subscriptions] table and the upsert issued by
      [setupPushSubscription];
    - [NotificationStore]: the client cache and unread counter of
      [NotificationContext.jsx];
    - [DocumentDetails]: [updateSignatureStatus] and
      [getSignatureProgress] of the document page (and the dashboard's
      variant of the latter);
    - [JsText]: Strings as code units, with [trim];
    - [CreateDocument]: [handleFileUpload], the form rules and [onSubmit]
      of the creation page;
    - [Store]: the row-level policies, sign-up, and the delete and
      approval statements with their triggers;
    - [DocumentPage], [Dashboard], [Dropdown], [Permission],
      [SignatoryForm], [Base64]: the remaining handlers of the pages and
      of the notification provider.

    A handler of a React component is created by a render and sees that
    render's state in its closure, while the updater functions it passes
    to the setters receive the state of the moment they run.  Where a
    handler reads its closure after an await, the model takes the
    render's state as an argument of its own. *)

From Stdlib Require Import ZArith NArith List Bool String Ascii Lia Finite.
From Stdlib Require Import Floats.SpecFloat.
Import ListNotations.

Set Implicit Arguments.

(** ** Values shared by the database and the client *)

(** Identifiers are UUIDs: 128-bit values, of which the all-zero one is
    the literal the SQL functions use as a sentinel. *)
Abbreviation uuid := N.
Definition nil_uuid : uuid := 0%N.

(** Timestamps WITH TIME ZONE, as an instant. *)
Abbreviation timestamptz := Z.

(** The double quote character, for the messages that contain one. *)
Definition dquote : string := String "034"%char EmptyString.

(** JSONB payloads, as far as the triggers build them. *)
Inductive JsonValue :=
| JNull
| JBool (b : bool)
| JString (s : string).

(** A flat JSON object, as jsonb_build_object builds from scalars. *)
Definition Json := list (string * JsonValue).

Definition json_text (t : option string) : JsonValue :=
  match t with Some s => JString s | None => JNull end.

Definition json_bool (b : option bool) : JsonValue :=
  match b with Some v => JBool v | None => JNull end.

(** users.role, constrained by CHECK (role IN ('admin', 'member')). *)
Inductive Role := admin | member.

Definition Role_eqb (a b : Role) : bool :=
  match a, b with
  | admin, admin | member, member => true
  | _, _ => false
  end.

(** documents.status, constrained by its CHECK. *)
Inductive DocStatus := pending | in_progress | completed | rejected.

Record User := mkUser {
  user_id : uuid;               (* PRIMARY KEY *)
  email : string;               (* NOT NULL *)
  full_name : string;           (* NOT NULL *)
  role : Role                   (* NOT NULL *)
}.

(** A row of [documents]; a nullable column is an [option].  The client
    receives the same row as a JS object, [null] for NULL. *)
Record Document := mkDocument {
  doc_id : uuid;
  doc_name : string;
  description : option string;
  file_url : option string;
  file_name : option string;
  created_by : option uuid;
  requires_admin_approval : option bool;
  admin_approved : option bool;
  admin_approved_by : option uuid;
  admin_approved_at : option timestamptz;
  status : DocStatus
}.

(** A row of [document_signatories].  [is_signed] defaults to false and
    every write in the repository stores true or false. *)
Record Signatory := mkSignatory {
  sig_id : uuid;
  sig_document_id : option uuid;
  sig_name : string;
  position : option string;
  sig_email : option string;
  phone : option string;
  is_signed : bool;
  signed_at : option timestamptz;
  notes : option string;
  order_index : Z
}.

Record Comment := mkComment {
  comment_id : uuid;
  comment_document_id : option uuid;
  comment_user_id : option uuid;
  comment : string
}.

(** ** The trigger and function layer *)
Module Sql.

Local Open Scope string_scope.

(** *** SQL's three-valued logic: [None] is NULL *)

Definition sql_neq {A} (eqb : A -> A -> bool) (x y : option A) : option bool :=
  match x, y with
  | Some a, Some b => Some (negb (eqb a b))
  | _, _ => None
  end.

Definition sql_eq {A} (eqb : A -> A -> bool) (x y : option A) : option bool :=
  match x, y with
  | Some a, Some b => Some (eqb a b)
  | _, _ => None
  end.

Definition sql_or (x y : option bool) : option bool :=
  match x, y with
  | Some true, _ | _, Some true => Some true
  | Some false, Some false => Some false
  | _, _ => None
  end.

Definition sql_and (x y : option bool) : option bool :=
  match x, y with
  | Some false, _ | _, Some false => Some false
  | Some true, Some true => Some true
  | _, _ => None
  end.

(** [x IS DISTINCT FROM y]: never NULL. *)
Definition is_distinct_from {A} (eqb : A -> A -> bool) (x y : option A) : bool :=
  match x, y with
  | Some a, Some b => negb (eqb a b)
  | None, None => false
  | _, _ => true
  end.

Definition is_not_null {A} (x : option A) : bool :=
  match x with Some _ => true | None => false end.

(** IF and WHERE take a branch, or keep a row, only on TRUE. *)
Definition is_true (c : option bool) : bool :=
  match c with Some true => true | _ => false end.

Definition coalesce {A} (x : option A) (d : A) : A :=
  match x with Some a => a | None => d end.

(** [a || b] on TEXT: NULL as soon as one side is. *)
Definition concat (a b : option string) : option string :=
  match a, b with
  | Some s, Some t => Some (s ++ t)
  | _, _ => None
  end.

Infix "^^" := concat (at level 61, left associativity).

(** *** Errors raised inside the transaction *)
Inductive pg_error :=
| not_null_violation (column : string)
| check_violation (constraint : string)
| undefined_column (record_name field : string)
| feature_not_supported (message : string)
| foreign_key_violation (constraint : string).

Inductive result (A : Type) :=
| Ok (a : A)
| Raise (e : pg_error).
Arguments Ok {A} a.
Arguments Raise {A} e.

Definition bind {A B} (r : result A) (k : A -> result B) : result B :=
  match r with Ok a => k a | Raise e => Raise e end.

Notation "'do' x <- r ; k" := (bind r (fun x => k))
  (at level 10, x name, r at level 100, k at level 200).

(** *** The tables the functions read *)
Record Database := mkDatabase {
  users : list User;
  documents : list Document;
  document_comments : list Comment
}.

(** The columns an INSERT INTO notifications of this file sets; [id],
    [read] (FALSE) and the timestamps take their defaults. *)
Record NotificationValues := mkValues {
  n_user_id : option uuid;
  n_document_id : option uuid;
  n_title : option string;
  n_message : option string;
  n_type : option string;
  n_data : Json
}.

Definition notification_types : list string :=
  ["document_created"; "document_deleted"; "status_updated";
   "signature_added"; "admin_approval"; "comment_added"].

(** NOT NULL on user_id, title, message and type, and the CHECK on type.
    The two foreign keys of the table are [references_hold] below; the
    statements about inserts say which rows the values reference. *)
Definition check_row (r : NotificationValues) : result NotificationValues :=
  match n_user_id r, n_title r, n_message r, n_type r with
  | None, _, _, _ => Raise (not_null_violation "user_id")
  | _, None, _, _ => Raise (not_null_violation "title")
  | _, _, None, _ => Raise (not_null_violation "message")
  | _, _, _, None => Raise (not_null_violation "type")
  | Some _, Some _, Some _, Some t =>
      if existsb (String.eqb t) notification_types then Ok r
      else Raise (check_violation "notifications_type_check")
  end.

(** INSERT INTO notifications ... : the rows inserted, or the first
    violation. *)
Fixpoint insert_notifications (rows : list NotificationValues)
  : result (list NotificationValues) :=
  match rows with
  | [] => Ok []
  | r :: rest =>
      do r' <- check_row r;
      do rest' <- insert_notifications rest;
      Ok (r' :: rest')
  end.

(** The foreign keys of notifications: user_id REFERENCES users(id) and
    document_id REFERENCES documents(id); a NULL reference holds. *)
Definition references_hold (db : Database) (r : NotificationValues) : bool :=
  match n_user_id r with
  | None => true
  | Some u => existsb (fun x => N.eqb (user_id x) u) (users db)
  end
  && match n_document_id r with
     | None => true
     | Some d => existsb (fun x => N.eqb (doc_id x) d) (documents db)
     end.

(** *** create_notification_for_users *)
Definition create_notification_for_users
    (db : Database) (p_title p_message p_type : option string)
    (p_document_id : option uuid) (p_data : Json)
    (p_exclude_user_id : option uuid) : result (list NotificationValues) :=
  insert_notifications
    (map (fun u => mkValues (Some (user_id u)) p_document_id
                     p_title p_message p_type p_data)
       (filter (fun u => is_true (sql_neq N.eqb (Some (user_id u))
                                    (Some (coalesce p_exclude_user_id nil_uuid))))
          (users db))).

(** *** create_notification_for_user *)
Definition create_notification_for_user
    (p_user_id : option uuid) (p_title p_message p_type : option string)
    (p_document_id : option uuid) (p_data : Json)
  : result (list NotificationValues) :=
  insert_notifications
    [mkValues p_user_id p_document_id p_title p_message p_type p_data].

(** *** create_notification_for_document_users *)

Definition ouuid_eq_dec : forall x y : option uuid, {x = y} + {x <> y}.
Proof. decide equality; apply N.eq_dec. Defined.

(** ARRAY_AGG(DISTINCT e): NULL over no rows. *)
Definition array_agg_distinct (l : list (option uuid))
  : option (list (option uuid)) :=
  match l with
  | [] => None
  | _ => Some (nodup ouuid_eq_dec l)
  end.

(** SELECT created_by INTO doc_creator FROM documents WHERE id = p_document_id *)
Definition select_created_by (db : Database) (p_document_id : option uuid)
  : option uuid :=
  match find (fun d => is_true (sql_eq N.eqb (Some (doc_id d)) p_document_id))
          (documents db) with
  | Some d => created_by d
  | None => None
  end.

Definition admin_ids (db : Database) : list (option uuid) :=
  map (fun u => Some (user_id u))
    (filter (fun u => Role_eqb (role u) admin) (users db)).

Definition commenter_ids (db : Database) (p_document_id : option uuid)
  : list (option uuid) :=
  map comment_user_id
    (filter (fun c => is_true (sql_eq N.eqb (comment_document_id c) p_document_id))
       (document_comments db)).

(** The array [all_users] the function builds. *)
Definition all_users (db : Database) (p_document_id : option uuid)
  : list (option uuid) :=
  let doc_creator := select_created_by db p_document_id in
  let signatory_users := array_agg_distinct (admin_ids db) in
  let commenter_users := array_agg_distinct (commenter_ids db p_document_id) in
  [doc_creator] ++ coalesce signatory_users [] ++ coalesce commenter_users [].

(** The audience the INSERT of the function is written for: the
    distinct elements of [all_users] other than
    COALESCE(p_exclude_user_id, nil) and NULL.  The statement does not
    compute it, see [create_notification_for_document_users]. *)
Definition recipients (db : Database) (p_document_id p_exclude_user_id : option uuid)
  : list (option uuid) :=
  nodup ouuid_eq_dec
    (filter (fun x => is_true
               (sql_and (sql_neq N.eqb x (Some (coalesce p_exclude_user_id nil_uuid)))
                        (Some (is_not_null x))))
       (all_users db p_document_id)).

(** The INSERT of the function selects DISTINCT unnest(all_users), ...
    WHERE unnest(all_users) != ... AND unnest(all_users) IS NOT NULL.
    [unnest] returns a set, and a set-returning function is not allowed
    in WHERE: PostgreSQL rejects the statement when it analyses it, the
    first time the function reaches it, whatever [all_users] holds.  The
    three statements before it read the tables and cannot fail, so every
    call of the function ends in this error and inserts nothing. *)
Definition srf_in_where : pg_error :=
  feature_not_supported "set-returning functions are not allowed in WHERE".

Definition create_notification_for_document_users
    (db : Database) (p_title p_message p_type : option string)
    (p_document_id : option uuid) (p_data : Json)
    (p_exclude_user_id : option uuid) : result (list NotificationValues) :=
  let all_users' := all_users db p_document_id in
  Raise srf_in_where.

(** *** The triggers *)

(** SELECT full_name INTO v FROM users WHERE id = who *)
Definition select_full_name (db : Database) (who : option uuid) : option string :=
  match find (fun u => is_true (sql_eq N.eqb (Some (user_id u)) who)) (users db) with
  | Some u => Some (full_name u)
  | None => None
  end.

(** AFTER INSERT ON documents *)
Definition notify_document_created (db : Database) (NEW : Document)
  : result (list NotificationValues) :=
  let creator_name := select_full_name db (created_by NEW) in
  create_notification_for_users db
    (Some "New Document Created")
    (creator_name ^^ Some " created a new document: " ^^ Some (doc_name NEW))
    (Some "document_created")
    (Some (doc_id NEW))
    ([("document_name", JString (doc_name NEW));
              ("creator", json_text creator_name)])
    (created_by NEW).

(** BEFORE DELETE ON documents; [auth_uid] is auth.uid(). *)
Definition notify_document_deleted (db : Database) (auth_uid : option uuid)
    (OLD : Document) : result (list NotificationValues) :=
  let deleter_name := select_full_name db auth_uid in
  let doc_name' := Some (doc_name OLD) in
  create_notification_for_document_users db
    (Some "Document Deleted")
    (deleter_name ^^ Some " deleted the document: " ^^ doc_name')
    (Some "document_deleted")
    (Some (doc_id OLD))
    ([("document_name", json_text doc_name');
              ("deleter", json_text deleter_name)])
    auth_uid.

(** AFTER UPDATE ON documents *)
Definition notify_status_updated (db : Database) (auth_uid : option uuid)
    (OLD NEW : Document) : result (list NotificationValues) :=
  if is_true (sql_neq Bool.eqb (admin_approved OLD) (admin_approved NEW)) then
    let updater_name := select_full_name db auth_uid in
    let status_text :=
      if is_true (sql_eq Bool.eqb (admin_approved NEW) (Some true)) then "approved"
      else if is_true (sql_eq Bool.eqb (admin_approved NEW) (Some false)) then "rejected"
      else "pending review" in
    create_notification_for_document_users db
      (Some "Document Status Updated")
      (Some ("Document " ++ dquote) ^^ Some (doc_name NEW)
         ^^ Some (dquote ++ " has been ") ^^ Some status_text
         ^^ Some " by " ^^ updater_name)
      (Some "status_updated")
      (Some (doc_id NEW))
      ([("document_name", JString (doc_name NEW));
                ("status", JString status_text);
                ("updater", json_text updater_name);
                ("admin_approved", json_bool (admin_approved NEW))])
      auth_uid
  else Ok [].

(** A field of a trigger's OLD or NEW record is looked up by name in the
    row type of the table the trigger is attached to when the expression
    is evaluated; a name the table does not have raises. *)
Inductive datum :=
| DNull
| DBool (b : bool)
| DInt (z : Z)
| DText (s : string)
| DUuid (u : uuid)
| DTime (t : timestamptz).

Definition datum_eqb (a b : datum) : bool :=
  match a, b with
  | DBool x, DBool y => Bool.eqb x y
  | DInt x, DInt y => Z.eqb x y
  | DText x, DText y => String.eqb x y
  | DUuid x, DUuid y => N.eqb x y
  | DTime x, DTime y => Z.eqb x y
  | _, _ => false
  end.

Definition nullable (d : datum) : option datum :=
  match d with DNull => None | _ => Some d end.

Definition of_nullable {A} (f : A -> datum) (x : option A) : datum :=
  match x with Some a => f a | None => DNull end.

(** The columns of document_signatories (created_at and updated_at are
    not part of [Signatory]). *)
Definition signatory_field (record_name field : string) (r : Signatory)
  : result datum :=
  if field =? "id" then Ok (DUuid (sig_id r))
  else if field =? "document_id" then Ok (of_nullable DUuid (sig_document_id r))
  else if field =? "name" then Ok (DText (sig_name r))
  else if field =? "position" then Ok (of_nullable DText (position r))
  else if field =? "email" then Ok (of_nullable DText (sig_email r))
  else if field =? "phone" then Ok (of_nullable DText (phone r))
  else if field =? "is_signed" then Ok (DBool (is_signed r))
  else if field =? "signed_at" then Ok (of_nullable DTime (signed_at r))
  else if field =? "notes" then Ok (of_nullable DText (notes r))
  else if field =? "order_index" then Ok (DInt (order_index r))
  else Raise (undefined_column record_name field).

Definition datum_text (d : datum) : option string :=
  match d with DText s => Some s | _ => None end.

Definition datum_uuid (d : datum) : option uuid :=
  match d with DUuid u => Some u | _ => None end.

(** SELECT name INTO doc_name FROM documents WHERE id = NEW.document_id *)
Definition select_doc_name (db : Database) (p_document_id : option uuid)
  : option string :=
  match find (fun d => is_true (sql_eq N.eqb (Some (doc_id d)) p_document_id))
          (documents db) with
  | Some d => Some (doc_name d)
  | None => None
  end.

(** AFTER UPDATE ON document_signatories *)
Definition notify_signature_updated (db : Database) (OLD NEW : Signatory)
  : result (list NotificationValues) :=
  do old_signed_at <- signatory_field "old" "signed_at" OLD;
  do new_signed_at <- signatory_field "new" "signed_at" NEW;
  do old_status <- signatory_field "old" "status" OLD;
  do new_status <- signatory_field "new" "status" NEW;
  if is_true (sql_or
                (Some (is_distinct_from datum_eqb (nullable old_signed_at)
                         (nullable new_signed_at)))
                (sql_neq datum_eqb (nullable old_status) (nullable new_status)))
  then
    do new_document_id <- signatory_field "new" "document_id" NEW;
    do new_name <- signatory_field "new" "name" NEW;
    do new_position <- signatory_field "new" "position" NEW;
    let doc_name' := select_doc_name db (datum_uuid new_document_id) in
    let signatory_name := datum_text new_name in
    let status_text :=
      if is_true (sql_eq datum_eqb (nullable new_status) (Some (DText "signed")))
      then "signed"
      else if is_true (sql_eq datum_eqb (nullable new_status) (Some (DText "rejected")))
      then "rejected"
      else "pending" in
    create_notification_for_document_users db
      (Some "Signature Update")
      (signatory_name ^^ Some " has " ^^ Some status_text
         ^^ Some (" the document " ++ dquote) ^^ doc_name' ^^ Some dquote)
      (Some "signature_added")
      (datum_uuid new_document_id)
      ([("document_name", json_text doc_name');
                ("signatory_name", json_text signatory_name);
                ("status", JString status_text);
                ("position", json_text (datum_text new_position))])
      None
  else Ok [].

(** *** A club of three, for the examples *)
Definition ann : User := mkUser 1 "ann@club.org" "Ann" member.
Definition bob : User := mkUser 2 "bob@club.org" "Bob" admin.
Definition cy : User := mkUser 3 "cy@club.org" "Cy" member.

(** Ann's document, with a given approval value. *)
Definition budget_request (approval : option bool) : Document :=
  mkDocument 10 "Budget Request" None None None (Some 1%N) (Some true)
    approval None None pending.

(** The club once Ann has created her document and Cy has commented on
    it. *)
Definition club (approval : option bool) : Database :=
  mkDatabase [ann; bob; cy] [budget_request approval]
    [mkComment 20 (Some 10%N) (Some 3%N) "looks fine"].

End Sql.

(** ** Push subscriptions *)
Module Push.

Local Open Scope string_scope.

(** A row of [push_subscriptions]. *)
Record PushSubscription := mkPushSubscription {
  ps_id : uuid;                 (* PRIMARY KEY DEFAULT gen_random_uuid() *)
  ps_user_id : uuid;
  ps_endpoint : string;
  ps_p256dh : string;
  ps_auth : string
}.

(** The object the client sends: user_id and [subscriptionData], no id. *)
Record SubscriptionValues := mkSubscriptionValues {
  v_user_id : uuid;
  v_endpoint : string;
  v_p256dh : string;
  v_auth : string
}.

Inductive store_error :=
| unique_violation (constraint : string).

(** UNIQUE(user_id, endpoint) *)
Definition same_pair (u : uuid) (e : string) (r : PushSubscription) : bool :=
  N.eqb (ps_user_id r) u && String.eqb (ps_endpoint r) e.

Fixpoint unique_pairs (t : list PushSubscription) : bool :=
  match t with
  | [] => true
  | r :: rest =>
      negb (existsb (same_pair (ps_user_id r) (ps_endpoint r)) rest)
      && unique_pairs rest
  end.

Definition row_of (id : uuid) (v : SubscriptionValues) : PushSubscription :=
  mkPushSubscription id (v_user_id v) (v_endpoint v) (v_p256dh v) (v_auth v).

(** The columns an upsert resolves conflicts on: those of its onConflict
    option or, without one, the primary key. *)
Inductive conflict_target :=
| on_primary_key
| on_user_id_endpoint.

(** INSERT ... ON CONFLICT (target) DO UPDATE SET (the sent columns).
    [new_id] is the id the column default generates for the new row.  A
    conflict on the target updates the row in place; any other unique
    violation is an error and leaves the table as it was. *)
Definition upsert (target : conflict_target) (new_id : uuid)
    (v : SubscriptionValues) (t : list PushSubscription)
  : list PushSubscription * option store_error :=
  match target with
  | on_primary_key =>
      if existsb (fun r => N.eqb (ps_id r) new_id) t then
        let t' := map (fun r => if N.eqb (ps_id r) new_id then row_of new_id v else r) t in
        if unique_pairs t' then (t', None)
        else (t, Some (unique_violation "push_subscriptions_user_id_endpoint_key"))
      else if existsb (same_pair (v_user_id v) (v_endpoint v)) t then
        (t, Some (unique_violation "push_subscriptions_user_id_endpoint_key"))
      else ((t ++ [row_of new_id v])%list, None)
  | on_user_id_endpoint =>
      if existsb (same_pair (v_user_id v) (v_endpoint v)) t then
        (map (fun r => if same_pair (v_user_id v) (v_endpoint v) r
                       then row_of (ps_id r) v else r) t, None)
      else if existsb (fun r => N.eqb (ps_id r) new_id) t then
        (t, Some (unique_violation "push_subscriptions_pkey"))
      else ((t ++ [row_of new_id v])%list, None)
  end.

(** What pushManager.subscribe resolves to, keys already in base64. *)
Record BrowserSubscription := mkBrowserSubscription {
  sub_endpoint : string;
  sub_p256dh : string;
  sub_auth : string
}.

(** The store and the part of the provider's state the function touches. *)
Record World := mkWorld {
  push_subscriptions : list PushSubscription;
  pushSubscription : option BrowserSubscription;
  toasts : list string
}.

(** [setupPushSubscription].  [registered] is whether the service worker
    registration is there, [user] the signed-in user's id, [subscribed]
    what pushManager.subscribe resolves to ([None] when it rejects).  The
    upsert is given no onConflict option. *)
Definition setupPushSubscription (registered : bool) (user : option uuid)
    (subscribed : option BrowserSubscription) (new_id : uuid) (w : World)
  : World :=
  match registered, user with
  | true, Some uid =>
      match subscribed with
      | None =>
          mkWorld (push_subscriptions w) (pushSubscription w)
            (toasts w ++ ["Failed to set up push notifications"])%list
      | Some subscription =>
          let subscriptionData :=
            mkSubscriptionValues uid (sub_endpoint subscription)
              (sub_p256dh subscription) (sub_auth subscription) in
          match upsert on_primary_key new_id subscriptionData (push_subscriptions w) with
          | (t, Some _) =>
              mkWorld t (pushSubscription w)
                (toasts w ++ ["Failed to set up push notifications"])%list
          | (t, None) => mkWorld t (Some subscription) (toasts w)
          end
      end
  | _, _ => w
  end.

Definition rows_for (u : uuid) (e : string) (t : list PushSubscription)
  : list PushSubscription :=
  filter (same_pair u e) t.

(** *** A user registering one endpoint twice, for the examples *)
Definition endpoint : string := "https://push.example/send/abc".

Definition first_call : World :=
  setupPushSubscription true (Some 7%N)
    (Some (mkBrowserSubscription endpoint "k1" "a1")) 100%N (mkWorld [] None []).

Definition second_call : World :=
  setupPushSubscription true (Some 7%N)
    (Some (mkBrowserSubscription endpoint "k2" "a2")) 101%N first_call.

End Push.

(** ** The client notification store *)
Module NotificationStore.

Local Open Scope Z_scope.

(** A row of [notifications], as stored and as the client caches it. *)
Record Notification := mkNotification {
  id : uuid;
  n_user : uuid;
  document_id : option uuid;
  title : string;
  message : string;
  type : string;
  read : bool
}.

(** The stored rows, the signed-in user, and the provider's state. *)
Record World := mkWorld {
  table : list Notification;
  user : option uuid;
  notifications : list Notification;
  unreadCount : Z
}.

Definition mark_read (n : Notification) : Notification :=
  mkNotification (id n) (n_user n) (document_id n) (title n) (message n) (type n) true.

(** Row-level policy: a user reads, updates and deletes their own rows. *)
Definition own (uid : option uuid) (n : Notification) : bool :=
  match uid with Some u => N.eqb (n_user n) u | None => false end.

(** n => !n.read *)
Definition unread (n : Notification) : bool := negb (read n).

Definition unread_in (l : list Notification) : Z :=
  Z.of_nat (List.length (filter unread l)).

(** What the select of [loadNotifications] answers: { data, error }. *)
Inductive Response :=
| answered (data : option (list Notification))
| failed.

(** [loadNotifications]: data || [] is cached and its unread entries are
    counted; an error leaves the state as it was. *)
Definition loadNotifications (response : Response) (w : World) : World :=
  match user w, response with
  | Some _, answered data =>
      let rows := match data with Some l => l | None => [] end in
      mkWorld (table w) (user w) rows (unread_in rows)
  | _, _ => w
  end.

(** The callback of the live channel on an INSERT event, as far as the
    state goes (it also shows a toast and, when permitted, a browser
    notification). *)
Definition onInsert (newNotification : Notification) (w : World) : World :=
  mkWorld (table w) (user w)
    (newNotification :: notifications w) (unreadCount w + 1).

(** [markAsRead]; [fault] is whether the update returns an error. *)
Definition markAsRead (fault : bool) (notificationId : uuid) (w : World) : World :=
  if fault then w
  else
    mkWorld
      (map (fun n => if own (user w) n && N.eqb (id n) notificationId
                     then mark_read n else n) (table w))
      (user w)
      (map (fun n => if N.eqb (id n) notificationId then mark_read n else n)
         (notifications w))
      (Z.max 0 (unreadCount w - 1)).

(** [markAllAsRead] *)
Definition markAllAsRead (fault : bool) (w : World) : World :=
  match user w with
  | None => w
  | Some uid =>
      if fault then w
      else
        mkWorld
          (map (fun n => if own (user w) n && N.eqb (n_user n) uid && negb (read n)
                         then mark_read n else n) (table w))
          (user w)
          (map mark_read (notifications w))
          0
  end.

(** [deleteNotification]; [fault] is whether the delete returns an
    error.  The function is created anew by every render of the provider
    and closes over that render's [notifications] array, [rendered]
    here; it reads it after the request has been answered, to decide
    whether to decrement.  The two updaters receive the state of that
    later moment, [w].  Unlike [markAsRead], the decrement is not
    clamped. *)
Definition deleteNotification (rendered : list Notification) (fault : bool)
    (notificationId : uuid) (w : World) : World :=
  if fault then w
  else
    mkWorld
      (filter (fun n => negb (own (user w) n && N.eqb (id n) notificationId)) (table w))
      (user w)
      (filter (fun n => negb (N.eqb (id n) notificationId)) (notifications w))
      (match find (fun n => N.eqb (id n) notificationId) rendered with
       | Some notification =>
           if negb (read notification) then unreadCount w - 1 else unreadCount w
       | None => unreadCount w
       end).

(** [clearAllNotifications] *)
Definition clearAllNotifications (fault : bool) (w : World) : World :=
  match user w with
  | None => w
  | Some uid =>
      if fault then w
      else
        mkWorld
          (filter (fun n => negb (own (user w) n && N.eqb (n_user n) uid)) (table w))
          (user w) [] 0
  end.

(** The operations of the store.  A deletion carries the array of the
    render its handler comes from. *)
Inductive Operation :=
| LoadNotifications (response : Response)
| MarkAsRead (fault : bool) (notificationId : uuid)
| MarkAllAsRead (fault : bool)
| DeleteNotification (rendered : list Notification) (fault : bool)
    (notificationId : uuid)
| ClearAllNotifications (fault : bool)
| LiveInsert (newNotification : Notification).

Definition run (op : Operation) (w : World) : World :=
  match op with
  | LoadNotifications response => loadNotifications response w
  | MarkAsRead fault i => markAsRead fault i w
  | MarkAllAsRead fault => markAllAsRead fault w
  | DeleteNotification rendered fault i => deleteNotification rendered fault i w
  | ClearAllNotifications fault => clearAllNotifications fault w
  | LiveInsert n => onInsert n w
  end.

(** The counter agrees with the cache. *)
Definition reconciled (w : World) : Prop :=
  unreadCount w = unread_in (notifications w).

(** *** A cache of two notifications, for the examples *)
Definition note1 (read' : bool) : Notification :=
  mkNotification 1 7 (Some 10%N) "New Document Created"
    "Ann created a new document: Budget Request" "document_created" read'.

Definition note2 : Notification :=
  mkNotification 2 7 (Some 10%N) "Document Status Updated"
    "The document has been approved" "status_updated" false.

(** User 7 with both rows stored and cached, the first one read or not,
    and the counter in agreement. *)
Definition two_notes (read' : bool) : World :=
  mkWorld [note1 read'; note2] (Some 7%N) [note1 read'; note2]
    (if read' then 1 else 2).

(** User 7 with the unread second row alone, stored and cached, and the
    counter in agreement. *)
Definition one_note : World := mkWorld [note2] (Some 7%N) [note2] 1.

End NotificationStore.

(** ** JS numbers *)
Module Js.

Local Open Scope Z_scope.

(** A Number is an IEEE 754 binary64 value. *)
Definition Number := spec_float.
Definition prec : Z := 53.
Definition emax : Z := 1024.

(** The Number of an integer, as an array's length is. *)
Definition of_int (n : Z) : Number := binary_normalize prec emax n 0 false.

(** [x / y] and [x * y], each rounded to nearest, ties to even. *)
Definition div (x y : Number) : Number := SFdiv prec emax x y.
Definition mul (x y : Number) : Number := SFmul prec emax x y.

(** [Math.round]: the integer nearest to [x], the larger one on a tie,
    that is the floor of x + 1/2 taken exactly; a result of zero keeps
    the sign of [x], and NaN and the infinities are returned as they
    are. *)
Definition Math_round (x : Number) : Number :=
  match x with
  | S754_finite s m e =>
      let v := if s then Z.neg m else Z.pos m in
      let r := if 0 <=? e then v * 2 ^ e
               else (2 * v + 2 ^ (- e)) / 2 ^ (1 - e) in
      if r =? 0 then S754_zero s else of_int r
  | _ => x
  end.

End Js.

(** ** The document page *)
Module DocumentDetails.

Local Open Scope string_scope.

(** The component's state, as far as the two functions use it. *)
Record State := mkState {
  document : Document;
  signatories : list Signatory
}.

(** The requests sent to the store. *)
Inductive Request :=
| UpdateSignatory (signatoryId : uuid) (is_signed' : bool)
    (signed_at' : option timestamptz) (notes' : string)
| UpdateDocumentStatus (id : uuid) (status' : DocStatus)
| InsertActivity (document_id user_id : uuid) (action description : string).

Inductive Toast :=
| toast_success (msg : string)
| toast_error (msg : string).

Record Outcome := mkOutcome {
  state : State;
  requests : list Request;
  toasts : list Toast;
  refetch : bool                (* fetchDocumentDetails() was called *)
}.

Definition set_status (st : DocStatus) (d : Document) : Document :=
  mkDocument (doc_id d) (doc_name d) (description d) (file_url d) (file_name d)
    (created_by d) (requires_admin_approval d) (admin_approved d)
    (admin_approved_by d) (admin_approved_at d) st.

(** { ...sig, is_signed: isSigned, signed_at: ..., notes } *)
Definition signed_locally (isSigned : bool) (at_ : option timestamptz)
    (notes' : string) (sg : Signatory) : Signatory :=
  mkSignatory (sig_id sg) (sig_document_id sg) (sig_name sg) (position sg)
    (sig_email sg) (phone sg) isSigned at_ (Some notes') (order_index sg).

(** { ...sig, is_signed: isSigned } *)
Definition with_is_signed (isSigned : bool) (sg : Signatory) : Signatory :=
  mkSignatory (sig_id sg) (sig_document_id sg) (sig_name sg) (position sg)
    (sig_email sg) (phone sg) isSigned (signed_at sg) (notes sg) (order_index sg).

(** document.admin_approved !== false *)
Definition not_false (b : option bool) : bool :=
  match b with Some false => false | _ => true end.

(** [updateSignatureStatus].  The function is created anew by every
    render of the page and closes over that render's [signatories] and
    [document], [rendered] here; it reads them after the signatory
    update has been answered, to decide on completion.  The updaters
    passed to setSignatories and setDocument receive the state of that
    later moment, [st].  [fault] is whether the signatory update returns
    an error; [now] and [now'] are the two readings of the clock; [id]
    is the page's document id and [user_id] the signed-in user's. *)
Definition updateSignatureStatus (rendered : State) (fault : bool)
    (now now' : timestamptz) (id user_id : uuid)
    (signatoryId : uuid) (isSigned : bool) (notes' : string) (st : State)
  : Outcome :=
  let update :=
    UpdateSignatory signatoryId isSigned (if isSigned then Some now else None) notes' in
  if fault then
    mkOutcome st [update] [toast_error "Failed to update signature status"] false
  else
    let signatories' :=
      map (fun sg => if N.eqb (sig_id sg) signatoryId
                     then signed_locally isSigned (if isSigned then Some now' else None)
                            notes' sg
                     else sg) (signatories st) in
    let updatedSignatories :=
      map (fun sg => if N.eqb (sig_id sg) signatoryId
                     then with_is_signed isSigned sg else sg)
        (signatories rendered) in
    let allSigned := forallb is_signed updatedSignatories in
    let complete := allSigned && not_false (admin_approved (document rendered)) in
    let activity :=
      InsertActivity id user_id
        (if isSigned then "signature_added" else "signature_removed")
        ("Signatory " ++ (if isSigned then "signed" else "unsigned") ++ " the document") in
    mkOutcome
      (mkState (if complete then set_status completed (document st) else document st)
         signatories')
      ([update] ++ (if complete then [UpdateDocumentStatus id completed] else [])
         ++ [activity])%list
      [toast_success ("Signature " ++ (if isSigned then "added" else "removed")
                        ++ " successfully")]
      true.

(** [getSignatureProgress] of the document page. *)
Definition getSignatureProgress (signatories : list Signatory) : Js.Number :=
  if Nat.eqb (List.length signatories) 0 then Js.of_int 0
  else
    let completedSignatures := List.length (filter is_signed signatories) in
    Js.Math_round
      (Js.mul (Js.div (Js.of_int (Z.of_nat completedSignatures))
                 (Js.of_int (Z.of_nat (List.length signatories))))
         (Js.of_int 100)).

(** [getSignatureProgress] of the dashboard, whose argument may be
    missing. *)
Record Progress := mkProgress {
  signed : nat;
  total : nat;
  percentage : Js.Number
}.

Definition dashboard_getSignatureProgress (signatories : option (list Signatory))
  : Progress :=
  match signatories with
  | None | Some [] => mkProgress 0 0 (Js.of_int 0)
  | Some l =>
      let signed' := List.length (filter is_signed l) in
      let total' := List.length l in
      mkProgress signed' total'
        (if Nat.ltb 0 total'
         then Js.Math_round
                (Js.mul (Js.div (Js.of_int (Z.of_nat signed')) (Js.of_int (Z.of_nat total')))
                   (Js.of_int 100))
         else Js.of_int 0)
  end.

(** Following the specification's words: round(100 x signed / total) as
    an exact quotient, a half rounded up as Math.round does, and 0 for no
    signatories. *)
Definition spec_progress (signatories : list Signatory) : Z :=
  let s := Z.of_nat (List.length (filter is_signed signatories)) in
  let t := Z.of_nat (List.length signatories) in
  if (t =? 0)%Z then 0%Z else ((200 * s + t) / (2 * t))%Z.

(** Equality of Numbers as data. *)
Definition number_eqb (x y : Js.Number) : bool :=
  match x, y with
  | S754_zero a, S754_zero b => Bool.eqb a b
  | S754_infinity a, S754_infinity b => Bool.eqb a b
  | S754_nan, S754_nan => true
  | S754_finite a m e, S754_finite b n f =>
      Bool.eqb a b && Pos.eqb m n && Z.eqb e f
  | _, _ => false
  end.

(** The percentage as a function of the two lengths. *)
Definition percent_of (c t : nat) : Js.Number :=
  if Nat.eqb t 0 then Js.of_int 0
  else Js.Math_round
         (Js.mul (Js.div (Js.of_int (Z.of_nat c)) (Js.of_int (Z.of_nat t)))
            (Js.of_int 100)).

Definition exact_of (c t : nat) : Z :=
  if (Z.of_nat t =? 0)%Z then 0%Z
  else ((200 * Z.of_nat c + Z.of_nat t) / (2 * Z.of_nat t))%Z.

(** [n] signatories of which the first [k] have signed. *)
Definition signatory_row (i : nat) (is_signed' : bool) : Signatory :=
  mkSignatory (N.of_nat i) (Some 10%N) "Signatory" None None None is_signed'
    None None (Z.of_nat i).

Definition signed_first (k n : nat) : list Signatory :=
  map (fun i => signatory_row i (Nat.ltb i k)) (seq 0 n).

(** *** The scenario of the specification, for the examples *)

(** An approved document with two signatories, the first of whom has
    signed. *)
Definition budget_page : State :=
  mkState
    (mkDocument 10 "Budget Request" None None None (Some 1%N) (Some true)
       (Some true) (Some 2%N) (Some 1700000000%Z) pending)
    [mkSignatory 31 (Some 10%N) "Dean" None None None true
       (Some 1700000100%Z) None 0;
     mkSignatory 32 (Some 10%N) "Treasurer" None None None false None None 1].

(** The same document before anyone has signed. *)
Definition unsigned_page : State :=
  mkState (document budget_page)
    [mkSignatory 31 (Some 10%N) "Dean" None None None false None None 0;
     mkSignatory 32 (Some 10%N) "Treasurer" None None None false None None 1].

(** A rejected document whose only signatory has signed, and the same
    page once it has been approved and the signature undone. *)
Definition signed_page : State :=
  mkState (Sql.budget_request (Some false)) [signatory_row 31 true].

Definition undone_page : State :=
  mkState
    (mkDocument 10 "Budget Request" None None None (Some 1%N) (Some true)
       (Some true) (Some 2%N) (Some 6%Z) pending)
    [mkSignatory 31 (Some 10%N) "Signatory" None None None false None (Some "") 31].

(** Both "Mark as Signed" buttons of that page are pressed before it
    renders again: the two calls come from the render of
    [unsigned_page], and the second one's updaters receive the state the
    first one left. *)
Definition first_click : Outcome :=
  updateSignatureStatus unsigned_page false 1700000200 1700000201 10 2 31 true ""
    unsigned_page.

Definition second_click : Outcome :=
  updateSignatureStatus unsigned_page false 1700000300 1700000301 10 2 32 true ""
    (state first_click).

End DocumentDetails.

(** ** JS strings the user types *)
Module JsText.

Local Open Scope N_scope.

(** A String value: its sequence of UTF-16 code units. *)
Definition text := list N.

(** The String of a literal whose characters lie below U+0100. *)
Definition of_string (s : string) : text :=
  map N_of_ascii (list_ascii_of_string s).

(** The code points String.prototype.trim strips, ECMAScript's
    WhiteSpace and LineTerminator: TAB, LF, VT, FF, CR, SPACE, NO-BREAK
    SPACE, the other space separators (U+1680, U+2000 to U+200A, U+202F,
    U+205F, U+3000), LINE and PARAGRAPH SEPARATOR, and U+FEFF.  Each is
    one code unit. *)
Definition is_white_space (u : N) : bool :=
  ((9 <=? u) && (u <=? 13)) || (u =? 32) || (u =? 160) || (u =? 5760)
  || ((8192 <=? u) && (u <=? 8202)) || (u =? 8232) || (u =? 8233)
  || (u =? 8239) || (u =? 8287) || (u =? 12288) || (u =? 65279).

Fixpoint trimStart (s : text) : text :=
  match s with
  | [] => []
  | u :: rest => if is_white_space u then trimStart rest else s
  end.

Fixpoint trimEnd (s : text) : text :=
  match s with
  | [] => []
  | u :: rest =>
      match trimEnd rest with
      | [] => if is_white_space u then [] else [u]
      | kept => u :: kept
      end
  end.

(** String.prototype.trim *)
Definition trim (s : text) : text := trimEnd (trimStart s).

(** s[s.length - 1], undefined for the empty String. *)
Fixpoint last_unit (s : text) : option N :=
  match s with
  | [] => None
  | [u] => Some u
  | _ :: rest => last_unit rest
  end.

(** A String as a condition: false for the empty one only. *)
Definition truthy (s : text) : bool :=
  match s with [] => false | _ => true end.

(** Nothing but white space. *)
Definition blank (s : text) : bool := forallb is_white_space s.

End JsText.

(** ** The creation page *)
Module CreateDocument.

Local Open Scope string_scope.

(** The File the input hands over. *)
Record File := mkFile {
  size : Z;                     (* bytes *)
  type : string;                (* MIME type *)
  name : string
}.

(** `${user.id}/${Date.now()}.${fileExt}` *)
Record StoragePath := mkStoragePath {
  owner : uuid;
  stamp : Z;
  extension : string
}.

Record UploadedFile := mkUploadedFile {
  up_name : string;
  up_url : string;
  up_path : StoragePath
}.

(** An entry of the form's signatory array. *)
Record SignatoryFields := mkSignatoryFields {
  f_name : JsText.text;
  f_position : string;
  f_email : string;
  f_phone : string;
  f_order_index : nat
}.

(** The values the form submits. *)
Record FormData := mkFormData {
  d_name : string;
  d_description : string;
  d_requires_admin_approval : bool;
  d_signatories : list SignatoryFields
}.

(** The component's state; the [loading] and [uploading] flags, which
    every path resets, are left out. *)
Record State := mkState {
  uploadedFile : option UploadedFile
}.

(** The row [onSubmit] inserts into documents. *)
Record DocumentData := mkDocumentData {
  dd_name : string;
  dd_description : string;
  dd_file_url : string;
  dd_file_name : string;
  dd_created_by : uuid;
  dd_requires_admin_approval : bool;
  dd_status : DocStatus
}.

(** A row [onSubmit] inserts into document_signatories. *)
Record SignatoryData := mkSignatoryData {
  sd_document_id : uuid;
  sd_name : JsText.text;
  sd_position : option string;
  sd_email : option string;
  sd_phone : option string;
  sd_order_index : nat;
  sd_is_signed : bool
}.

Inductive Effect :=
| toast_error (msg : string)
| toast_success (msg : string)
| field_error (field : string) (index : option nat) (msg : string)
| storage_upload (path : StoragePath)
| insert_document (row : DocumentData)
| insert_signatories (rows : list SignatoryData)
| insert_activity (document_id user_id : uuid) (action description : string)
| navigate (document_id : uuid).

(** The effects that write to the store or to file storage. *)
Definition is_write (e : Effect) : bool :=
  match e with
  | storage_upload _ | insert_document _ | insert_signatories _
  | insert_activity _ _ _ _ => true
  | _ => false
  end.

(** The effects that tell the user something went wrong. *)
Definition is_rejection (e : Effect) : bool :=
  match e with
  | toast_error _ | field_error _ _ _ => true
  | _ => false
  end.

Definition max_size : Z := 10 * 1024 * 1024.

Definition allowedTypes : list string :=
  ["application/pdf"; "application/msword";
   "application/vnd.openxmlformats-officedocument.wordprocessingml.document";
   "image/png"; "image/jpeg"; "image/jpg"].

(** file.name.split('.').pop() *)
Fixpoint last_segment (current s : string) : string :=
  match s with
  | EmptyString => current
  | String c rest =>
      if Ascii.eqb c "."%char then last_segment EmptyString rest
      else last_segment (current ++ String c EmptyString) rest
  end.

(** [handleFileUpload].  [file] is event.target.files[0]; [upload_error]
    is the message of the error the upload returns, if it returns one;
    [publicUrl] is what getPublicUrl answers for the path. *)
Definition handleFileUpload (file : option File) (user_id : uuid) (now : Z)
    (upload_error : option string) (publicUrl : string) (st : State)
  : State * list Effect :=
  match file with
  | None => (st, [])
  | Some file =>
      if (size file >? max_size)%Z then
        (st, [toast_error "File size must be less than 10MB"])
      else if negb (existsb (String.eqb (type file)) allowedTypes) then
        (st, [toast_error "Only PDF, DOC, DOCX, PNG, and JPG files are allowed"])
      else
        let fileExt := last_segment EmptyString (name file) in
        let fileName := mkStoragePath user_id now fileExt in
        match upload_error with
        | Some msg =>
            (st, [storage_upload fileName;
                  toast_error ("Failed to upload file: " ++ msg)])
        | None =>
            (mkState (Some (mkUploadedFile (name file) publicUrl fileName)),
             [storage_upload fileName; toast_success "File uploaded successfully!"])
        end
  end.

(** [removeSignatory], on the form's array of signatory entries. *)
Fixpoint remove_at {A} (index : nat) (l : list A) : list A :=
  match l, index with
  | [], _ => []
  | _ :: rest, O => rest
  | x :: rest, S i => x :: remove_at i rest
  end.

Definition removeSignatory (index : nat) (fields : list SignatoryFields)
  : list SignatoryFields * list Effect :=
  if Nat.ltb 1 (List.length fields) then
    (remove_at index fields, [toast_success "Signatory removed"])
  else (fields, [toast_error "At least one signatory is required"]).

(** The rules the inputs are registered with: the document name is
    required and at least 3 characters long, each signatory name is
    required.  A required text value fails when it is the empty string;
    minLength applies to a value that is not empty. *)
Fixpoint validate_signatories (index : nat) (l : list SignatoryFields)
  : list Effect :=
  match l with
  | [] => []
  | f :: rest =>
      ((if negb (JsText.truthy (f_name f)) then
          [field_error "signatories.name" (Some index) "Name is required"]
        else []) ++ validate_signatories (S index) rest)%list
  end.

Definition validate (data : FormData) : list Effect :=
  ((if String.eqb (d_name data) "" then
      [field_error "name" None "Document name is required"]
    else if Nat.ltb (String.length (d_name data)) 3 then
      [field_error "name" None "Name must be at least 3 characters"]
    else [])
   ++ validate_signatories 0 (d_signatories data))%list.

(** value || null *)
Definition or_null (s : string) : option string :=
  if String.eqb s "" then None else Some s.

Fixpoint indexed {A B} (f : A -> nat -> B) (index : nat) (l : list A) : list B :=
  match l with
  | [] => []
  | x :: rest => f x index :: indexed f (S index) rest
  end.

(** [onSubmit].  [document_insert] is what the insert into documents
    returns: the id of the new row, or the message of an error;
    [signatories_error] the message of the error the signatory insert
    returns, if it returns one. *)
Definition onSubmit (data : FormData) (user_id : uuid)
    (document_insert : uuid + string) (signatories_error : option string)
    (st : State) : State * list Effect :=
  match uploadedFile st with
  | None => (st, [toast_error "Please upload a document file"])
  | Some uploaded =>
      let documentData :=
        mkDocumentData (d_name data) (d_description data) (up_url uploaded)
          (up_name uploaded) user_id (d_requires_admin_approval data) pending in
      match document_insert with
      | inr msg =>
          (st, [insert_document documentData;
                toast_error ("Failed to create document tracker: " ++ msg)])
      | inl document_id =>
          let signatoryData :=
            indexed (fun sg index =>
                       mkSignatoryData document_id (f_name sg)
                         (or_null (f_position sg)) (or_null (f_email sg))
                         (or_null (f_phone sg)) index false)
              0 (filter (fun sg => JsText.truthy (JsText.trim (f_name sg)))
                   (d_signatories data)) in
          let written :=
            if Nat.ltb 0 (List.length (d_signatories data))
               && Nat.ltb 0 (List.length signatoryData)
            then [insert_signatories signatoryData] else [] in
          match written, signatories_error with
          | _ :: _, Some msg =>
              (st, ([insert_document documentData] ++ written
                    ++ [toast_error ("Failed to create document tracker: " ++ msg)])%list)
          | _, _ =>
              (st, ([insert_document documentData] ++ written
                    ++ [insert_activity document_id user_id "created"
                          "Document tracker created";
                        toast_success "Document tracker created successfully!";
                        navigate document_id])%list)
          end
      end
  end.

(** handleSubmit(onSubmit): the handler runs only on values that pass
    the rules; otherwise the errors are shown next to the inputs. *)
Definition handleSubmit (data : FormData) (user_id : uuid)
    (document_insert : uuid + string) (signatories_error : option string)
    (st : State) : State * list Effect :=
  match validate data with
  | [] => onSubmit data user_id document_insert signatories_error st
  | errors => (st, errors)
  end.

(** An attempt to create a document: choosing its file, or submitting
    the form. *)
Inductive Attempt :=
| choose_file (file : File) (now : Z) (upload_error : option string)
    (publicUrl : string)
| submit (data : FormData) (document_insert : uuid + string)
    (signatories_error : option string).

Definition attempt (a : Attempt) (user_id : uuid) (st : State)
  : State * list Effect :=
  match a with
  | choose_file file now upload_error publicUrl =>
      handleFileUpload (Some file) user_id now upload_error publicUrl st
  | submit data document_insert signatories_error =>
      handleSubmit data user_id document_insert signatories_error st
  end.

(** What makes an attempt invalid: a file that is too large or of a type
    that is not allowed, or a submission without an uploaded file,
    without a document name, or with a signatory whose name is empty. *)
Definition invalid (a : Attempt) (st : State) : Prop :=
  match a with
  | choose_file file _ _ _ =>
      (size file > max_size)%Z \/ ~ In (type file) allowedTypes
  | submit data _ _ =>
      uploadedFile st = None \/ d_name data = "" \/
      (exists f, In f (d_signatories data) /\ f_name f = [])
  end.

(** *** A submission, for the examples *)
Definition budget_pdf : UploadedFile :=
  mkUploadedFile "budget.pdf" "https://files.example/1/5.pdf" (mkStoragePath 1 5 "pdf").

Definition budget_row : DocumentData :=
  mkDocumentData "Budget Request" "" "https://files.example/1/5.pdf" "budget.pdf"
    1 false pending.

(** The budget request with one signatory entry, whose name is a space. *)
Definition blank_signatory : FormData :=
  mkFormData "Budget Request" "" false
    [mkSignatoryFields (JsText.of_string " ") "" "" "" 0].

(** The budget request with the Dean as its signatory, and with a
    blank entry between the Dean and the Treasurer. *)
Definition one_entry : FormData :=
  mkFormData "Budget Request" "" false
    [mkSignatoryFields (JsText.of_string "Dean") "" "" "" 0].

Definition three_entries : FormData :=
  mkFormData "Budget Request" "" false
    [mkSignatoryFields (JsText.of_string "Dean") "" "" "" 0;
     mkSignatoryFields (JsText.of_string "  ") "" "" "" 1;
     mkSignatoryFields (JsText.of_string "Treasurer") "" "" "" 2].

(** What the page does on its submission: the document row, the
    activity row, the success message, the navigation. *)
Definition accepted : list Effect :=
  [insert_document budget_row;
   insert_activity 10 1 "created" "Document tracker created";
   toast_success "Document tracker created successfully!";
   navigate 10].

End CreateDocument.

(** ** The store: row-level policies, sign-up, deletion *)
Module Store.
Import Sql.

Local Open Scope string_scope.

(** EXISTS (SELECT 1 FROM users WHERE users.id = auth.uid() AND
    users.role = 'admin') *)
Definition is_admin (db : Database) (auth_uid : option uuid) : bool :=
  existsb (fun u => is_true (sql_eq N.eqb (Some (user_id u)) auth_uid)
                    && Role_eqb (role u) admin)
    (users db).

(** The policies "Document creators and admins can update documents" and
    "... can delete documents": auth.uid() = created_by OR EXISTS (...). *)
Definition may_modify_document (db : Database) (auth_uid : option uuid)
    (d : Document) : bool :=
  is_true (sql_or (sql_eq N.eqb auth_uid (created_by d))
             (Some (is_admin db auth_uid))).

(** The policy "Comment creators and admins can delete comments". *)
Definition may_delete_comment (db : Database) (auth_uid : option uuid)
    (c : Comment) : bool :=
  is_true (sql_or (sql_eq N.eqb auth_uid (comment_user_id c))
             (Some (is_admin db auth_uid))).

(** The policy "Document creators and admins can manage signatories":
    EXISTS (SELECT 1 FROM documents WHERE documents.id =
    document_signatories.document_id AND (documents.created_by =
    auth.uid() OR EXISTS (...))). *)
Definition may_manage_signatory (db : Database) (auth_uid : option uuid)
    (sg : Signatory) : bool :=
  existsb (fun d =>
             is_true (sql_and (sql_eq N.eqb (Some (doc_id d)) (sig_document_id sg))
                        (sql_or (sql_eq N.eqb (created_by d) auth_uid)
                           (Some (is_admin db auth_uid)))))
    (documents db).

(** A row of [document_activity]. *)
Record Activity := mkActivity {
  act_id : uuid;
  act_document_id : option uuid;
  act_user_id : option uuid;
  act_action : string;
  act_description : option string
}.

(** The tables a deletion reaches.  A notification row is kept as the
    columns its INSERT sets. *)
Record Tables := mkTables {
  base : Database;
  document_signatories : list Signatory;
  document_activity : list Activity;
  notifications : list NotificationValues
}.

(** column = id, as a WHERE clause keeps rows *)
Definition refers_to (id : uuid) (column : option uuid) : bool :=
  is_true (sql_eq N.eqb column (Some id)).

(** DELETE FROM document_comments WHERE document_id = id, as the
    signed-in user: the rows the policy lets that user delete. *)
Definition delete_comments (auth_uid : option uuid) (id : uuid) (t : Tables)
  : Tables :=
  mkTables
    (mkDatabase (users (base t)) (documents (base t))
       (filter (fun c => negb (refers_to id (comment_document_id c)
                               && may_delete_comment (base t) auth_uid c))
          (document_comments (base t))))
    (document_signatories t) (document_activity t) (notifications t).

(** DELETE FROM document_activity WHERE document_id = id: the table has
    policies for SELECT and INSERT only, so no row is the user's to
    delete. *)
Definition delete_activity (auth_uid : option uuid) (id : uuid) (t : Tables)
  : Tables := t.

(** DELETE FROM document_signatories WHERE document_id = id *)
Definition delete_signatories (auth_uid : option uuid) (id : uuid) (t : Tables)
  : Tables :=
  mkTables (base t)
    (filter (fun sg => negb (refers_to id (sig_document_id sg)
                             && may_manage_signatory (base t) auth_uid sg))
       (document_signatories t))
    (document_activity t) (notifications t).

(** DELETE FROM documents WHERE id = id, as the signed-in user.  For the
    row the policy lets the user delete, the BEFORE DELETE trigger runs
    first and its notifications are inserted; then the row goes, and
    with it, ON DELETE CASCADE, the signatories, activity, comments and
    notifications that reference it.  The result carries the rows the
    trigger inserted. *)
Definition delete_document (auth_uid : option uuid) (id : uuid) (t : Tables)
  : result (Tables * list NotificationValues) :=
  match find (fun d => N.eqb (doc_id d) id
                       && may_modify_document (base t) auth_uid d)
          (documents (base t)) with
  | None => Ok (t, [])
  | Some OLD =>
      do inserted <- notify_document_deleted (base t) auth_uid OLD;
      Ok (mkTables
            (mkDatabase (users (base t))
               (filter (fun d => negb (N.eqb (doc_id d) id)) (documents (base t)))
               (filter (fun c => negb (refers_to id (comment_document_id c)))
                  (document_comments (base t))))
            (filter (fun sg => negb (refers_to id (sig_document_id sg)))
               (document_signatories t))
            (filter (fun a => negb (refers_to id (act_document_id a)))
               (document_activity t))
            (filter (fun n => negb (refers_to id (n_document_id n)))
               (notifications t ++ inserted)%list),
          inserted)
  end.

(** The row an UPDATE of the three approval columns leaves. *)
Definition approved_row (approved : bool) (by_ : uuid) (at_ : timestamptz)
    (d : Document) : Document :=
  mkDocument (doc_id d) (doc_name d) (description d) (file_url d) (file_name d)
    (created_by d) (requires_admin_approval d) (Some approved) (Some by_)
    (Some at_) (status d).

(** UPDATE documents SET admin_approved = approved, admin_approved_by =
    by_, admin_approved_at = at_ WHERE id = id, as the signed-in user:
    the request of [handleAdminApproval].  The row the policy lets the
    user update takes the three values; admin_approved_by REFERENCES
    users(id).  Then the AFTER UPDATE trigger runs; an error it raises
    aborts the statement, and the rows it inserts are stored. *)
Definition update_approval (auth_uid : option uuid) (id : uuid) (approved : bool)
    (by_ : uuid) (at_ : timestamptz) (t : Tables) : result Tables :=
  let updatable d :=
    N.eqb (doc_id d) id && may_modify_document (base t) auth_uid d in
  match find updatable (documents (base t)) with
  | None => Ok t
  | Some OLD =>
      if negb (existsb (fun u => N.eqb (user_id u) by_) (users (base t))) then
        Raise (foreign_key_violation "documents_admin_approved_by_fkey")
      else
        let NEW := approved_row approved by_ at_ OLD in
        let base' :=
          mkDatabase (users (base t))
            (map (fun d => if updatable d then approved_row approved by_ at_ d else d)
               (documents (base t)))
            (document_comments (base t)) in
        do inserted <- notify_status_updated base' auth_uid OLD NEW;
        Ok (mkTables base' (document_signatories t) (document_activity t)
              (notifications t ++ inserted)%list)
  end.

(** *** Sign-up *)

(** The columns of auth.users the function reads. *)
Record AuthUser := mkAuthUser {
  au_id : uuid;
  au_email : option string;
  raw_user_meta_data : option Json
}.

Inductive insert_error :=
| null_value (column : string)
| check_failed (constraint : string)
| duplicate_key (constraint : string).

(** object ->> key: the value as text, NULL for a missing key or a JSON
    null. *)
Definition json_text_at (j : option Json) (key : string) : option string :=
  match j with
  | None => None
  | Some fields =>
      match find (fun kv => String.eqb (fst kv) key) fields with
      | Some (_, JString s) => Some s
      | Some (_, JBool true) => Some "true"
      | Some (_, JBool false) => Some "false"
      | _ => None
      end
  end.

(** split_part(s, '@', 1): what comes before the first '@', all of [s]
    when it has none. *)
Fixpoint before_at (s : string) : string :=
  match s with
  | EmptyString => EmptyString
  | String c rest =>
      if Ascii.eqb c "@"%char then EmptyString else String c (before_at rest)
  end.

Definition split_part_at_1 (s : option string) : option string :=
  match s with Some e => Some (before_at e) | None => None end.

(** COALESCE over two nullable values *)
Definition coalesce2 {A} (x y : option A) : option A :=
  match x with Some _ => x | None => y end.

(** [handle_new_user], AFTER INSERT ON auth.users: the row it inserts
    into users, under NOT NULL on email and full_name, the CHECK on
    role, the primary key and UNIQUE (email). *)
Definition handle_new_user (NEW : AuthUser) (db : Database)
  : Database + insert_error :=
  let full_name' :=
    coalesce2 (json_text_at (raw_user_meta_data NEW) "full_name")
      (split_part_at_1 (au_email NEW)) in
  let role' := coalesce (json_text_at (raw_user_meta_data NEW) "role") "member" in
  match au_email NEW, full_name' with
  | None, _ => inr (null_value "email")
  | _, None => inr (null_value "full_name")
  | Some email', Some name' =>
      match (if role' =? "admin" then Some admin
             else if role' =? "member" then Some member else None) with
      | None => inr (check_failed "users_role_check")
      | Some r =>
          if existsb (fun u => N.eqb (user_id u) (au_id NEW)) (users db) then
            inr (duplicate_key "users_pkey")
          else if existsb (fun u => String.eqb (email u) email') (users db) then
            inr (duplicate_key "users_email_key")
          else
            inl (mkDatabase (users db ++ [mkUser (au_id NEW) email' name' r])%list
                   (documents db) (document_comments db))
      end
  end.


(** *** The club with its other tables, for the examples *)
Definition club_tables : Tables :=
  mkTables (club (Some true))
    [mkSignatory 31 (Some 10%N) "Dean" None None None true
       (Some 1700000100%Z) None 0]
    [mkActivity 41 (Some 10%N) (Some 1%N) "created" (Some "Document tracker created")]
    [mkValues (Some 2%N) (Some 10%N) (Some "New Document Created")
       (Some "Ann created a new document: Budget Request")
       (Some "document_created") []].

End Store.

(** ** Splitting and searching strings *)
Module JsString.

(** s.split(separator).pop() *)
Fixpoint last_part (separator : ascii) (current s : string) : string :=
  match s with
  | EmptyString => current
  | String c rest =>
      if Ascii.eqb c separator then last_part separator EmptyString rest
      else last_part separator (current ++ String c EmptyString) rest
  end.

Fixpoint contains (c : ascii) (s : string) : bool :=
  match s with
  | EmptyString => false
  | String d rest => Ascii.eqb c d || contains c rest
  end.

End JsString.

(** ** The document page: approval, deletion, comments *)
Module DocumentPage.
Import DocumentDetails.

Local Open Scope string_scope.

(** What an optional chain reads: undefined when the object is missing,
    null for a NULL column. *)
Inductive js_id :=
| js_undefined
| js_null
| js_value (u : uuid).

(** a === b *)
Definition strict_eq (a b : js_id) : bool :=
  match a, b with
  | js_undefined, js_undefined | js_null, js_null => true
  | js_value x, js_value y => N.eqb x y
  | _, _ => false
  end.

(** document?.created_by *)
Definition created_by_of (document : option Document) : js_id :=
  match document with
  | None => js_undefined
  | Some d => match created_by d with Some u => js_value u | None => js_null end
  end.

(** user?.id *)
Definition id_of (user : option uuid) : js_id :=
  match user with None => js_undefined | Some u => js_value u end.

(** [canUserDelete]: profile?.role === 'admin' ||
    document?.created_by === user?.id *)
Definition canUserDelete (profile : option User) (document : option Document)
    (user : option uuid) : bool :=
  match profile with
  | Some p => Role_eqb (role p) admin
  | None => false
  end
  || strict_eq (created_by_of document) (id_of user).

(** [isDocumentLocked]: document?.requires_admin_approval &&
    document?.admin_approved === false, as a condition. *)
Definition isDocumentLocked (document : option Document) : bool :=
  match document with
  | None => false
  | Some d =>
      match requires_admin_approval d with
      | Some true => match admin_approved d with Some false => true | _ => false end
      | _ => false
      end
  end.

(** The requests these functions send. *)
Inductive Call :=
| update_approval (id : uuid) (admin_approved' : bool)
    (admin_approved_by' : uuid) (admin_approved_at' : timestamptz)
| insert_activity (document_id user_id : uuid) (action description : string)
| storage_remove (folder : option uuid) (fileName : string)
| delete_comments (document_id : uuid)
| delete_activity (document_id : uuid)
| delete_signatories (document_id : uuid)
| delete_document (id : uuid)
| insert_comment (document_id user_id : uuid) (text : JsText.text).

Inductive Feedback :=
| said_success (msg : string)
| said_error (msg : string).

Record Result (S : Type) := mkResult {
  after : S;
  calls : list Call;
  feedback : list Feedback;
  navigated : option string;
  refetched : bool
}.
Arguments mkResult {S} _ _ _ _ _.
Arguments after {S} _.
Arguments calls {S} _.
Arguments feedback {S} _.
Arguments navigated {S} _.
Arguments refetched {S} _.

(** { ...prev, ...updateData } *)
Definition with_approval (approved : bool) (by_ : uuid) (at_ : timestamptz)
    (d : Document) : Document :=
  mkDocument (doc_id d) (doc_name d) (description d) (file_url d) (file_name d)
    (created_by d) (requires_admin_approval d) (Some approved) (Some by_)
    (Some at_) (status d).

(** [handleAdminApproval].  [approvingDocument] is the flag of that
    name; [fault] is whether the update returns an error. *)
Definition handleAdminApproval (approvingDocument fault : bool)
    (now : timestamptz) (id user_id : uuid) (approved : bool) (st : State)
  : Result State :=
  if approvingDocument then mkResult st [] [] None false
  else
    let update := update_approval id approved user_id now in
    if fault then
      mkResult st [update] [said_error "Failed to update admin approval"] None false
    else
      mkResult
        (mkState (with_approval approved user_id now (document st)) (signatories st))
        [update;
         insert_activity id user_id
           (if approved then "admin_approved" else "admin_rejected")
           ("Document " ++ (if approved then "approved" else "rejected") ++ " by admin")]
        [said_success ("Document " ++ (if approved then "approved" else "rejected")
                         ++ " successfully")]
        None true.

(** [handleDeleteDocument].  [confirmDelete] is what window.confirm
    answers, [secondConfirm] what window.prompt does (null when it is
    dismissed); [fault] is whether the delete of the document row
    returns an error, the only answer the function looks at. *)
Definition handleDeleteDocument (deletingDocument confirmDelete : bool)
    (secondConfirm : option string) (fault : bool) (id : uuid) (st : State)
  : Result State :=
  if deletingDocument then mkResult st [] [] None false
  else if negb confirmDelete then mkResult st [] [] None false
  else if negb (match secondConfirm with
                | Some typed => String.eqb typed "DELETE"
                | None => false
                end) then
    mkResult st [] [said_error "Deletion cancelled - confirmation text did not match"]
      None false
  else
    let removal :=
      match file_url (document st) with
      | Some (String c rest) =>
          [storage_remove (created_by (document st))
             (JsString.last_part "/"%char EmptyString (String c rest))]
      | _ => []
      end in
    let sent :=
      (removal ++ [delete_comments id; delete_activity id;
                   delete_signatories id; delete_document id])%list in
    if fault then
      mkResult st sent [said_error "Failed to delete document"] None false
    else
      mkResult st sent [said_success "Document deleted successfully"]
        (Some "/dashboard") false.

(** A comment as the page holds it. *)
Record ShownComment := mkShownComment {
  shown_id : uuid;
  shown_document_id : uuid;
  shown_user_id : uuid;
  shown_comment : JsText.text
}.

(** The comments panel. *)
Record CommentBox := mkCommentBox {
  comments : list ShownComment;
  newComment : JsText.text
}.

(** [addComment].  [inserted] is the id of the row the insert returns,
    or [None] when it returns an error. *)
Definition addComment (inserted : option uuid) (id user_id : uuid)
    (box : CommentBox) : Result CommentBox :=
  let text := JsText.trim (newComment box) in
  if negb (JsText.truthy text) then mkResult box [] [] None false
  else
      match inserted with
      | None =>
          mkResult box [insert_comment id user_id text]
            [said_error "Failed to add comment"] None false
      | Some new_id =>
          mkResult
            (mkCommentBox (mkShownComment new_id id user_id text :: comments box) [])
            [insert_comment id user_id text;
             insert_activity id user_id "comment_added" "Added a comment"]
            [said_success "Comment added successfully"] None false
      end.

(** A comment typed with spaces around it. *)
Definition spaced_comment : CommentBox :=
  mkCommentBox [] (JsText.of_string "  looks fine ").

(** What the requests of a deletion do to the tables, sent as the
    signed-in user, in the order they are sent.  Each request is a
    statement of its own: one that raises leaves the tables as they were
    and the next one is sent all the same.  The storage request leaves
    the tables alone.  The flag says whether a delete of a document row
    was answered with an error. *)
Fixpoint perform (auth_uid : option uuid) (sent : list Call) (t : Store.Tables)
  : Store.Tables * bool :=
  match sent with
  | [] => (t, false)
  | call :: rest =>
      match call with
      | delete_comments id => perform auth_uid rest (Store.delete_comments auth_uid id t)
      | delete_activity id => perform auth_uid rest (Store.delete_activity auth_uid id t)
      | delete_signatories id =>
          perform auth_uid rest (Store.delete_signatories auth_uid id t)
      | delete_document id =>
          match Store.delete_document auth_uid id t with
          | Sql.Raise _ => (fst (perform auth_uid rest t), true)
          | Sql.Ok (t', _) => perform auth_uid rest t'
          end
      | _ => perform auth_uid rest t
      end
  end.

End DocumentPage.

(** ** The dashboard *)
Module Dashboard.

Local Open Scope string_scope.

(** documents.status as the text the row carries. *)
Definition status_text (s : DocStatus) : string :=
  match s with
  | pending => "pending"
  | in_progress => "in_progress"
  | completed => "completed"
  | rejected => "rejected"
  end.

Record Stats := mkStats {
  stat_total : nat;
  stat_pending : nat;
  stat_inProgress : nat;
  stat_completed : nat
}.

Definition has_status (text : string) (doc : Document) : bool :=
  String.eqb (status_text (status doc)) text.

(** The counters [fetchDocuments] sets. *)
Definition stats_of (documentsData : list Document) : Stats :=
  mkStats (List.length documentsData)
    (List.length (filter (has_status "pending") documentsData))
    (List.length (filter (has_status "in_progress") documentsData))
    (List.length (filter (has_status "completed") documentsData)).

(** [filteredDocuments] *)
Definition filteredDocuments (filter' : string) (documents : list Document)
  : list Document :=
  filter (fun doc => if String.eqb filter' "all" then true
                     else has_status filter' doc) documents.

(** stats[key]: undefined for a name the object does not have. *)
Definition stats_get (key : string) (stats : Stats) : option nat :=
  if key =? "total" then Some (stat_total stats)
  else if key =? "pending" then Some (stat_pending stats)
  else if key =? "inProgress" then Some (stat_inProgress stats)
  else if key =? "completed" then Some (stat_completed stats)
  else None.

(** The number a tab shows: tab.key === 'all' ? stats.total :
    stats[tab.key]. *)
Definition tab_count (key : string) (stats : Stats) : option nat :=
  if key =? "all" then Some (stat_total stats) else stats_get key stats.

Definition tab_keys : list string := ["all"; "pending"; "in_progress"; "completed"].

End Dashboard.

(** ** The notification bell *)
Module Dropdown.
Import NotificationStore.

(** [handleNotificationClick]: the store after it, where it navigates
    to, and [isOpen]. *)
Definition handleNotificationClick (fault : bool) (notification : Notification)
    (w : World) : World * option uuid * bool :=
  (if negb (read notification) then markAsRead fault (id notification) w else w,
   document_id notification,
   false).

End Dropdown.

(** ** Asking for permission *)
Module Permission.

Local Open Scope string_scope.

(** Notification.permission *)
Inductive Permission := default | granted | denied.

Record Provider := mkProvider {
  world : Push.World;
  notificationPermission : Permission
}.

Definition say (msg : string) (w : Push.World) : Push.World :=
  Push.mkWorld (Push.push_subscriptions w) (Push.pushSubscription w)
    (Push.toasts w ++ [msg])%list.

(** [requestNotificationPermission].  [supported] is 'Notification' in
    window, [current] Notification.permission, [answer] what
    Notification.requestPermission resolves to; the other arguments are
    those of [setupPushSubscription]. *)
Definition requestNotificationPermission (supported : bool)
    (current answer : Permission) (registered : bool) (user : option uuid)
    (subscribed : option Push.BrowserSubscription) (new_id : uuid)
    (p : Provider) : Provider * bool :=
  if negb supported then
    (mkProvider (say "This browser does not support notifications" (world p))
       (notificationPermission p), false)
  else
    let permission := match current with default => answer | _ => current end in
    match permission with
    | granted =>
        (mkProvider
           (say "Notifications enabled!"
              (Push.setupPushSubscription registered user subscribed new_id (world p)))
           permission, true)
    | _ =>
        (mkProvider (say "Notification permission denied" (world p)) permission, false)
    end.

End Permission.

(** ** The signatory entries of the creation form *)
Module SignatoryForm.
Import CreateDocument.

(** [addSignatory] *)
Definition addSignatory (fields : list SignatoryFields) : list SignatoryFields :=
  (fields ++ [mkSignatoryFields [] EmptyString EmptyString EmptyString
                (List.length fields)])%list.

(** The two buttons of the signatory card. *)
Inductive Click :=
| add
| remove (index : nat).

Definition click (c : Click) (fields : list SignatoryFields)
  : list SignatoryFields :=
  match c with
  | add => addSignatory fields
  | remove index => fst (removeSignatory index fields)
  end.

End SignatoryForm.

(** ** Base64: the two helpers of the notification provider *)
Module Base64.

Local Open Scope string_scope.

(** The base64 alphabet of btoa and atob. *)
Definition alphabet : string :=
  "ABCDEFGHIJKLMNOPQRSTUVWXYZabcdefghijklmnopqrstuvwxyz0123456789+/".

Definition digit (n : N) : ascii :=
  match String.get (N.to_nat n) alphabet with
  | Some c => c
  | None => "="%char
  end.

Fixpoint index_of (c : ascii) (s : string) : option N :=
  match s with
  | EmptyString => None
  | String d rest =>
      if Ascii.eqb c d then Some 0%N
      else match index_of c rest with
           | Some i => Some (N.succ i)
           | None => None
           end
  end.

Definition value (c : ascii) : option N := index_of c alphabet.

(** [btoa] on a binary string: three bytes give four digits, and a last
    group of one or two bytes is padded with '='. *)
Fixpoint btoa (binary : string) : string :=
  match binary with
  | EmptyString => EmptyString
  | String a EmptyString =>
      let x := N_of_ascii a in
      String (digit (x / 4)) (String (digit ((x mod 4) * 16)) "==")
  | String a (String b EmptyString) =>
      let x := N_of_ascii a in
      let y := N_of_ascii b in
      String (digit (x / 4))
        (String (digit ((x mod 4) * 16 + y / 16))
           (String (digit ((y mod 16) * 4)) "="))
  | String a (String b (String c rest)) =>
      let x := N_of_ascii a in
      let y := N_of_ascii b in
      let z := N_of_ascii c in
      String (digit (x / 4))
        (String (digit ((x mod 4) * 16 + y / 16))
           (String (digit ((y mod 16) * 4 + z / 64))
              (String (digit (z mod 64)) (btoa rest))))
  end.

(** ASCII white space, which [atob] skips: tab, line feed, form feed,
    carriage return and space. *)
Definition is_whitespace (c : ascii) : bool :=
  let n := N_of_ascii c in
  (N.eqb n 9 || N.eqb n 10 || N.eqb n 12 || N.eqb n 13 || N.eqb n 32)%N.

Fixpoint without_whitespace (s : string) : string :=
  match s with
  | EmptyString => EmptyString
  | String c rest =>
      if is_whitespace c then without_whitespace rest
      else String c (without_whitespace rest)
  end.

(** Remove a '=' that ends the string. *)
Fixpoint drop_last_eq (s : string) : string :=
  match s with
  | EmptyString => EmptyString
  | String c EmptyString => if Ascii.eqb c "=" then EmptyString else s
  | String c rest => String c (drop_last_eq rest)
  end.

(** When the length is a multiple of 4, one or two '=' at the end are
    removed. *)
Definition strip_padding (s : string) : string :=
  if Nat.eqb (String.length s mod 4) 0 then drop_last_eq (drop_last_eq s) else s.

Fixpoint values (s : string) : option (list N) :=
  match s with
  | EmptyString => Some []
  | String c rest =>
      match value c, values rest with
      | Some v, Some vs => Some (v :: vs)
      | _, _ => None
      end
  end.

(** Four digits give three bytes; of a last group of two or three
    digits the bits that do not fill a byte are dropped. *)
Fixpoint decode (v : list N) : string :=
  match v with
  | a :: b :: c :: d :: rest =>
      String (ascii_of_N (a * 4 + b / 16))
        (String (ascii_of_N ((b mod 16) * 16 + c / 4))
           (String (ascii_of_N ((c mod 4) * 64 + d)) (decode rest)))
  | [a; b; c] =>
      String (ascii_of_N (a * 4 + b / 16))
        (String (ascii_of_N ((b mod 16) * 16 + c / 4)) EmptyString)
  | [a; b] => String (ascii_of_N (a * 4 + b / 16)) EmptyString
  | _ => EmptyString
  end.

(** [atob]: [None] when it throws. *)
Definition atob (data : string) : option string :=
  let stripped := strip_padding (without_whitespace data) in
  if Nat.eqb (String.length stripped mod 4) 1 then None
  else match values stripped with
       | Some v => Some (decode v)
       | None => None
       end.

(** '='.repeat(n) *)
Fixpoint repeat_eq (n : nat) : string :=
  match n with
  | O => EmptyString
  | S m => String "=" (repeat_eq m)
  end.

(** s.replace(/c/g, d) for a single character *)
Fixpoint replace_all (c d : ascii) (s : string) : string :=
  match s with
  | EmptyString => EmptyString
  | String x rest =>
      String (if Ascii.eqb x c then d else x) (replace_all c d rest)
  end.

(** [urlBase64ToUint8Array] *)
Definition urlBase64ToUint8Array (base64String : string) : option (list Byte.byte) :=
  let padding := repeat_eq ((4 - String.length base64String mod 4) mod 4) in
  let base64 := replace_all "_" "/" (replace_all "-" "+" (base64String ++ padding)) in
  match atob base64 with
  | Some rawData => Some (map byte_of_ascii (list_ascii_of_string rawData))
  | None => None
  end.

(** [arrayBufferToBase64] *)
Definition arrayBufferToBase64 (buffer : list Byte.byte) : string :=
  btoa (string_of_list_ascii (map ascii_of_byte buffer)).

(** For the statements: the digits of a binary string as numbers, the
    padding [btoa] adds, and a test on every character. *)
Fixpoint sextets (binary : string) : list N :=
  match binary with
  | EmptyString => []
  | String a EmptyString =>
      let x := N_of_ascii a in [x / 4; (x mod 4) * 16]%N
  | String a (String b EmptyString) =>
      let x := N_of_ascii a in
      let y := N_of_ascii b in
      [x / 4; (x mod 4) * 16 + y / 16; (y mod 16) * 4]%N
  | String a (String b (String c rest)) =>
      let x := N_of_ascii a in
      let y := N_of_ascii b in
      let z := N_of_ascii c in
      (x / 4 :: (x mod 4) * 16 + y / 16 :: (y mod 16) * 4 + z / 64 :: z mod 64
         :: sextets rest)%N
  end.

Fixpoint padding_of (binary : string) : string :=
  match binary with
  | EmptyString => EmptyString
  | String _ EmptyString => "=="
  | String _ (String _ EmptyString) => "="
  | String _ (String _ (String _ rest)) => padding_of rest
  end.

Fixpoint text_of (v : list N) : string :=
  match v with
  | [] => EmptyString
  | n :: rest => String (digit n) (text_of rest)
  end.

Fixpoint every (p : ascii -> bool) (s : string) : bool :=
  match s with
  | EmptyString => true
  | String c rest => p c && every p rest
  end.

(** The URL-safe form of a base64 text: '-' for '+', '_' for '/', and
    no padding. *)
Definition url_safe (base64 : string) : string :=
  replace_all "/" "_" (replace_all "+" "-" (drop_last_eq (drop_last_eq base64))).

(** What holds of each of the 64 digits. *)
Definition digit_ok (n : N) : bool :=
  match value (digit n) with Some m => N.eqb m n | None => false end
  && negb (is_whitespace (digit n))
  && negb (Ascii.eqb (digit n) "=")
  && negb (Ascii.eqb (digit n) "-")
  && negb (Ascii.eqb (digit n) "_").

End Base64.

(** * Properties *)

Section SqlFacts.
Import Sql.
Local Open Scope string_scope.

(** ** Facts about the insert and the queries *)

Lemma insert_notifications_ok rows :
  Forall (fun r => check_row r = Ok r) rows ->
  insert_notifications rows = Ok rows.
Proof.
  induction 1 as [|r rest Hr _ IH]; simpl; [reflexivity|].
  now rewrite Hr, IH.
Qed.

Lemma check_row_ok u d t m ty j :
  In ty notification_types ->
  check_row (mkValues (Some u) d (Some t) (Some m) (Some ty) j)
  = Ok (mkValues (Some u) d (Some t) (Some m) (Some ty) j).
Proof.
  intros Hty. unfold check_row; simpl n_type; cbv iota beta.
  simpl n_user_id; simpl n_title; simpl n_message; cbv iota beta.
  replace (existsb (String.eqb ty) notification_types) with true; [reflexivity|].
  symmetry. apply existsb_exists. exists ty. split; [assumption|apply String.eqb_refl].
Qed.

Lemma select_full_name_found db who :
  In who (map user_id (users db)) ->
  exists s, select_full_name db (Some who) = Some s.
Proof.
  unfold select_full_name. intros Hin.
  destruct (find _ (users db)) as [u|] eqn:Hf; [now exists (full_name u)|].
  exfalso. apply in_map_iff in Hin. destruct Hin as [u [Hu Hin]].
  apply (find_none _ _ Hf) in Hin. simpl in Hin.
  rewrite Hu, N.eqb_refl in Hin. discriminate.
Qed.

Lemma filter_map_comm {A B} (f : A -> B) (p : B -> bool) (l : list A) :
  map f (filter (fun a => p (f a)) l) = filter p (map f l).
Proof.
  induction l as [|a l IH]; simpl; [reflexivity|].
  destruct (p (f a)); simpl; now rewrite IH.
Qed.

Lemma length_filter_neq (U : uuid) (ids : list uuid) :
  NoDup ids -> In U ids ->
  List.length (filter (fun i => negb (N.eqb i U)) ids) + 1 = List.length ids.
Proof.
  induction 1 as [|i ids Hni Hnd IH]; [simpl; tauto|].
  intros [->|Hin]; cbn [filter List.length].
  - rewrite N.eqb_refl; cbn [negb].
    assert (Hall : filter (fun i => negb (N.eqb i U)) ids = ids).
    { apply forallb_filter_id. apply forallb_forall. intros x Hx.
      destruct (N.eqb_spec x U); [subst; contradiction|reflexivity]. }
    rewrite Hall. lia.
  - destruct (N.eqb_spec i U); [subst; contradiction|]. cbn [negb List.length].
    specialize (IH Hin). lia.
Qed.

(** The audience is made of the members of [all_users] other than NULL
    and the excluded user. *)
Lemma in_recipients db d excl v :
  In (Some v) (recipients db d excl) <->
  v <> coalesce excl nil_uuid /\ In (Some v) (all_users db d).
Proof.
  unfold recipients. rewrite nodup_In, filter_In. simpl.
  destruct (N.eqb_spec v (coalesce excl nil_uuid)); simpl; intuition congruence.
Qed.

(** The function raises on every call and so inserts nothing. *)
Lemma create_notification_for_document_users_raises db t m ty d j excl :
  create_notification_for_document_users db t m ty d j excl = Raise srf_in_where.
Proof. reflexivity. Qed.

(** *** Document creation *)

(** C3.  With the users' ids distinct (the primary key), a document
    inserted with creator [U], an existing user, makes the trigger insert
    one row for each other user and none for [U]: as many rows as there
    are users, less one, each of type document_created and referencing
    the new document. *)
Theorem notify_document_created_fanout (db : Database) (NEW : Document) (U : uuid) :
  NoDup (map user_id (users db)) ->
  In U (map user_id (users db)) ->
  created_by NEW = Some U ->
  exists rows,
    notify_document_created db NEW = Ok rows /\
    List.length rows + 1 = List.length (users db) /\
    (forall u, In u (users db) -> user_id u <> U ->
       count_occ ouuid_eq_dec (map n_user_id rows) (Some (user_id u)) = 1) /\
    ~ In (Some U) (map n_user_id rows) /\
    Forall (fun r => n_type r = Some "document_created" /\
                     n_document_id r = Some (doc_id NEW)) rows.
Proof.
  intros Hnd HU Hc.
  destruct (select_full_name_found db U HU) as [creator Hname].
  unfold notify_document_created, create_notification_for_users.
  rewrite Hc, Hname. cbn [concat coalesce sql_neq is_true].
  set (others := filter _ (users db)).
  set (rows := map _ others).
  assert (Hids : map n_user_id rows
                 = map Some (filter (fun i => negb (N.eqb i U)) (map user_id (users db)))).
  { unfold rows, others. rewrite map_map. cbn [n_user_id].
    rewrite <- (filter_map_comm user_id (fun i => negb (N.eqb i U))).
    rewrite map_map. f_equal.
    apply filter_ext. intros u. now destruct (N.eqb (user_id u) U). }
  exists rows. split; [|split; [|split; [|split]]].
  - apply insert_notifications_ok. apply Forall_forall. intros r Hr.
    apply in_map_iff in Hr. destruct Hr as [u [<- _]].
    apply check_row_ok. simpl. tauto.
  - rewrite <- (length_map n_user_id rows), Hids, length_map.
    rewrite <- (length_map user_id (users db)).
    now apply length_filter_neq.
  - intros u Hu Hne. rewrite Hids.
    apply NoDup_count_occ'.
    + apply Injective_map_NoDup; [intros a b; congruence|].
      now apply NoDup_filter.
    + apply in_map, filter_In. split; [now apply in_map|].
      now destruct (N.eqb_spec (user_id u) U).
  - rewrite Hids. intros Hin. apply in_map_iff in Hin.
    destruct Hin as [i [Hi Hin]]. injection Hi as ->.
    apply filter_In in Hin. rewrite N.eqb_refl in Hin. now destruct Hin.
  - apply Forall_forall. intros r Hr.
    apply in_map_iff in Hr. destruct Hr as [u [<- _]]. simpl. tauto.
Qed.

(** The theorem applied: Ann creates her document in the club of three. *)
Lemma notify_document_created_fanout_witness :
  exists rows,
    notify_document_created (club (Some false)) (budget_request (Some false)) = Ok rows /\
    List.length rows + 1 = List.length (users (club (Some false))) /\
    (forall u, In u (users (club (Some false))) -> user_id u <> 1%N ->
       count_occ ouuid_eq_dec (map n_user_id rows) (Some (user_id u)) = 1) /\
    ~ In (Some 1%N) (map n_user_id rows) /\
    Forall (fun r => n_type r = Some "document_created" /\
                     n_document_id r = Some (doc_id (budget_request (Some false)))) rows.
Proof.
  apply (notify_document_created_fanout (club (Some false))
           (budget_request (Some false)) (U := 1%N)).
  - simpl. repeat constructor; simpl; intuition discriminate.
  - simpl. tauto.
  - reflexivity.
Defined.

(** *** Admin approval *)

(** Writing the approval value a document already holds notifies nobody. *)
Lemma notify_status_updated_same_value db auth_uid OLD NEW :
  admin_approved OLD = admin_approved NEW ->
  notify_status_updated db auth_uid OLD NEW = Ok [].
Proof.
  intros H. unfold notify_status_updated. rewrite H.
  destruct (admin_approved NEW) as [[|]|]; reflexivity.
Qed.

(** A change between approved and rejected reaches
    create_notification_for_document_users, whose INSERT PostgreSQL
    rejects: the trigger raises. *)
Lemma notify_status_updated_changed db auth_uid OLD NEW a b :
  admin_approved OLD = Some a ->
  admin_approved NEW = Some b ->
  a <> b ->
  notify_status_updated db auth_uid OLD NEW = Raise srf_in_where.
Proof.
  intros Ha Hb Hab. unfold notify_status_updated. rewrite Ha, Hb.
  replace (is_true (sql_neq Bool.eqb (Some a) (Some b))) with true
    by (destruct a, b; simpl; congruence).
  reflexivity.
Qed.

(** C1.  Ann's document, whose approval is unset (NULL) and on which Cy
    has commented, is approved by Bob, the admin.  The audience of that
    update is Ann and Cy, yet the trigger inserts nothing: it does not
    even call the function that notifies, because
    OLD.admin_approved != NEW.admin_approved is NULL, not TRUE. *)
Theorem notify_status_updated_from_unset :
  notify_status_updated (club (Some true)) (Some (user_id bob))
    (budget_request None) (budget_request (Some true)) = Ok [] /\
  recipients (club (Some true)) (Some (doc_id (budget_request (Some true))))
    (Some (user_id bob)) = [Some (user_id ann); Some (user_id cy)].
Proof. split; reflexivity. Qed.

(** The same for every update that starts from, or ends on, an unset
    approval value. *)
Lemma notify_status_updated_null db auth_uid OLD NEW :
  admin_approved OLD = None \/ admin_approved NEW = None ->
  notify_status_updated db auth_uid OLD NEW = Ok [].
Proof.
  unfold notify_status_updated.
  intros [H|H]; rewrite H; [|destruct (admin_approved OLD)]; reflexivity.
Qed.

(** *** Signatures *)

(** C4.  document_signatories has no status column, so the condition of
    the trigger, which reads OLD.status, raises on every update of a
    signatory row: no notification is inserted, whatever changed. *)
Theorem notify_signature_updated_raises (db : Database) (OLD NEW : Signatory) :
  notify_signature_updated db OLD NEW = Raise (undefined_column "old" "status").
Proof. reflexivity. Qed.

(** The audience the call is written for: with nobody to exclude, the
    acting user stays in it. *)
Lemma signature_audience_keeps_actor db d actor :
  actor <> nil_uuid ->
  (In (Some actor) (recipients db d None) <-> In (Some actor) (all_users db d)) /\
  ~ In (Some actor) (recipients db d (Some actor)).
Proof.
  intros Hn. rewrite !in_recipients. simpl. tauto.
Qed.

End SqlFacts.

(** ** Push subscriptions *)
Section PushFacts.
Import Push.
Local Open Scope string_scope.

Lemma unique_pairs_at_most_one u e t :
  unique_pairs t = true -> (List.length (rows_for u e t) <= 1)%nat.
Proof.
  unfold rows_for. induction t as [|r t IH]; simpl; [lia|].
  intros Hu. apply andb_true_iff in Hu. destruct Hu as [Hr Ht].
  specialize (IH Ht).
  destruct (same_pair u e r) eqn:Hs; [|assumption].
  simpl. apply negb_true_iff in Hr.
  assert (Hnone : filter (same_pair u e) t = []).
  { destruct (filter (same_pair u e) t) as [|x rest] eqn:Hf; [reflexivity|].
    exfalso.
    assert (Hx : In x (filter (same_pair u e) t)) by (rewrite Hf; now left).
    apply filter_In in Hx. destruct Hx as [Hin Hx].
    assert (Hex : existsb (same_pair (ps_user_id r) (ps_endpoint r)) t = true).
    { apply existsb_exists. exists x. split; [assumption|].
      unfold same_pair in *.
      apply andb_true_iff in Hs. destruct Hs as [Hs1 Hs2].
      apply N.eqb_eq in Hs1. apply String.eqb_eq in Hs2. now rewrite Hs1, Hs2. }
    congruence. }
  rewrite Hnone. simpl. lia.
Qed.

(** Once a row is stored for the pair, a further call whose generated id
    is new is refused by the unique constraint: the table, and with it
    the stored keys, stay as they were, and the failure is reported. *)
Lemma setupPushSubscription_again uid subscription new_id w :
  existsb (same_pair uid (sub_endpoint subscription)) (push_subscriptions w) = true ->
  existsb (fun r => N.eqb (ps_id r) new_id) (push_subscriptions w) = false ->
  setupPushSubscription true (Some uid) (Some subscription) new_id w
  = mkWorld (push_subscriptions w) (pushSubscription w)
      (toasts w ++ ["Failed to set up push notifications"])%list.
Proof.
  intros Hpair Hid. unfold setupPushSubscription, upsert.
  simpl v_user_id; simpl v_endpoint. now rewrite Hid, Hpair.
Qed.

(** C6.  User 7 registers an endpoint with keys k1/a1, then the same
    endpoint with keys k2/a2.  The pair is stored once, never twice, but
    the row holds the keys of the first call: the second upsert is
    refused and reported as a failure. *)
Theorem setupPushSubscription_twice_keeps_first_keys :
  rows_for 7%N endpoint (push_subscriptions second_call)
    = [mkPushSubscription 100%N 7%N endpoint "k1" "a1"] /\
  push_subscriptions second_call = push_subscriptions first_call /\
  toasts second_call = ["Failed to set up push notifications"].
Proof. repeat split; reflexivity. Qed.

(** An upsert resolving conflicts on (user_id, endpoint) would have
    replaced the keys. *)
Lemma upsert_on_pair_replaces_keys :
  fst (upsert on_user_id_endpoint 101%N
         (mkSubscriptionValues 7%N endpoint "k2" "a2")
         [mkPushSubscription 100%N 7%N endpoint "k1" "a1"])
  = [mkPushSubscription 100%N 7%N endpoint "k2" "a2"].
Proof. reflexivity. Qed.

End PushFacts.

(** ** The client notification store *)
Section NotificationStoreFacts.
Import NotificationStore.
Local Open Scope Z_scope.

Lemma unread_in_cons n l :
  unread_in (n :: l) = (if unread n then 1 else 0) + unread_in l.
Proof.
  unfold unread_in. simpl. destruct (unread n); simpl List.length; lia.
Qed.

Lemma unread_in_nonneg l : 0 <= unread_in l.
Proof. unfold unread_in. lia. Qed.

Lemma unread_in_pos n l : In n l -> unread n = true -> 1 <= unread_in l.
Proof.
  induction l as [|x l IH]; simpl; [tauto|].
  intros [->|Hin] Hn; rewrite unread_in_cons.
  - rewrite Hn. pose proof (unread_in_nonneg l). lia.
  - specialize (IH Hin Hn). destruct (unread x); lia.
Qed.

Lemma unread_in_all_read l : unread_in (map mark_read l) = 0.
Proof.
  induction l as [|x l IH]; [reflexivity|].
  simpl map. rewrite unread_in_cons, IH. reflexivity.
Qed.

Lemma find_absent x l :
  ~ In x (map id l) -> find (fun n => N.eqb (id n) x) l = None.
Proof.
  intros Hni. destruct (find _ l) as [n|] eqn:Hf; [|reflexivity].
  apply find_some in Hf. destruct Hf as [Hin Heq]. apply N.eqb_eq in Heq.
  exfalso. apply Hni. rewrite <- Heq. now apply in_map.
Qed.

Lemma filter_absent x l :
  ~ In x (map id l) -> filter (fun n => negb (N.eqb (id n) x)) l = l.
Proof.
  intros Hni. apply forallb_filter_id, forallb_forall. intros n Hn.
  destruct (N.eqb_spec (id n) x) as [<-|]; [|reflexivity].
  exfalso. apply Hni. now apply in_map.
Qed.

Lemma map_absent x l :
  ~ In x (map id l) ->
  map (fun n => if N.eqb (id n) x then mark_read n else n) l = l.
Proof.
  intros Hni. rewrite <- (map_id l) at 2. apply map_ext_in. intros n Hn.
  destruct (N.eqb_spec (id n) x) as [<-|]; [|reflexivity].
  exfalso. apply Hni. now apply in_map.
Qed.

(** Removing an id from a cache without duplicate ids lowers the number
    of unread entries by one exactly when the id was cached unread. *)
Lemma unread_in_remove x l :
  NoDup (map id l) ->
  unread_in (filter (fun n => negb (N.eqb (id n) x)) l)
  = match find (fun n => N.eqb (id n) x) l with
    | Some n => if negb (read n) then unread_in l - 1 else unread_in l
    | None => unread_in l
    end.
Proof.
  induction l as [|n l IH]; [reflexivity|].
  simpl map. intros Hnd. inversion Hnd as [|? ? Hni Hnd']; subst.
  cbn [filter find]. destruct (N.eqb_spec (id n) x) as [<-|Hne]; cbn [negb].
  - rewrite filter_absent by assumption. rewrite unread_in_cons.
    unfold unread. destruct (read n); cbn [negb]; lia.
  - rewrite !unread_in_cons, IH by assumption.
    destruct (find _ l) as [m|]; [destruct (negb (read m))|]; lia.
Qed.

Lemma unread_in_mark x l :
  NoDup (map id l) ->
  unread_in (map (fun n => if N.eqb (id n) x then mark_read n else n) l)
  = match find (fun n => N.eqb (id n) x) l with
    | Some n => if negb (read n) then unread_in l - 1 else unread_in l
    | None => unread_in l
    end.
Proof.
  induction l as [|n l IH]; [reflexivity|].
  simpl map. intros Hnd. inversion Hnd as [|? ? Hni Hnd']; subst.
  cbn [find]. destruct (N.eqb_spec (id n) x) as [<-|Hne].
  - rewrite map_absent by assumption. rewrite !unread_in_cons.
    unfold unread. cbn [read mark_read negb]. destruct (read n); cbn [negb]; lia.
  - rewrite !unread_in_cons, IH by assumption.
    destruct (find _ l) as [m|]; [destruct (negb (read m))|]; lia.
Qed.

(** Every operation but [markAsRead] keeps the counter equal to the
    number of cached unread notifications, for a cache without duplicate
    ids, live events that carry unread rows, and a deletion whose
    handler comes from a render that shows the notification as the
    cache holds it when the request is answered. *)
Lemma reconciled_preserved op w :
  reconciled w ->
  NoDup (map id (notifications w)) ->
  match op with
  | MarkAsRead _ _ => False
  | DeleteNotification rendered _ i =>
      find (fun n => N.eqb (id n) i) rendered
      = find (fun n => N.eqb (id n) i) (notifications w)
  | LiveInsert n => read n = false
  | _ => True
  end ->
  reconciled (run op w).
Proof.
  unfold reconciled. intros Hr Hnd Hop.
  destruct op as [response|fault i|fault|rendered fault i|fault|n]; simpl run.
  - unfold loadNotifications.
    destruct (user w); [destruct response|]; simpl; auto.
  - contradiction.
  - unfold markAllAsRead.
    destruct (user w); [destruct fault|]; simpl; auto.
    now rewrite unread_in_all_read.
  - unfold deleteNotification.
    destruct fault; simpl; auto.
    rewrite unread_in_remove, Hop by assumption.
    destruct (find _ (notifications w)) as [m|]; [destruct (negb (read m))|]; lia.
  - unfold clearAllNotifications.
    destruct (user w); [destruct fault|]; simpl; auto.
  - unfold onInsert. simpl. rewrite unread_in_cons. unfold unread.
    rewrite Hop. cbn [negb]. lia.
Qed.

(** [markAsRead] keeps it too when the notification is cached and unread. *)
Lemma markAsRead_unread_reconciled fault i n w :
  reconciled w ->
  NoDup (map id (notifications w)) ->
  find (fun m => N.eqb (id m) i) (notifications w) = Some n ->
  read n = false ->
  reconciled (markAsRead fault i w).
Proof.
  unfold reconciled, markAsRead. intros Hr Hnd Hf Hread.
  destruct fault; simpl; auto.
  rewrite unread_in_mark, Hf, Hread by assumption. cbn [negb].
  apply find_some in Hf. destruct Hf as [Hin _].
  assert (1 <= unread_in (notifications w)).
  { apply (unread_in_pos n); [assumption|]. unfold unread. now rewrite Hread. }
  lia.
Qed.

(** C2.  A cache in agreement with its counter holds notification 1,
    read, and notification 2, unread: counter 1.  Marking notification 1
    read again leaves one unread notification in the cache and a counter
    of 0. *)
Theorem markAsRead_breaks_reconciled :
  reconciled (two_notes true) /\
  unreadCount (run (MarkAsRead false 1%N) (two_notes true)) = 0 /\
  unread_in (notifications (run (MarkAsRead false 1%N) (two_notes true))) = 1 /\
  ~ reconciled (run (MarkAsRead false 1%N) (two_notes true)).
Proof.
  unfold reconciled.
  repeat split; try reflexivity. simpl. discriminate.
Qed.

(** What marking read does keep: the rows and the cache are the same
    after a second call, and the counter never goes up from a
    non-negative value. *)
Lemma markAsRead_rows_idempotent i w :
  table (markAsRead false i (markAsRead false i w)) = table (markAsRead false i w) /\
  notifications (markAsRead false i (markAsRead false i w))
  = notifications (markAsRead false i w).
Proof.
  unfold markAsRead. simpl. rewrite !map_map. split; apply map_ext; intros n.
  - destruct (own (user w) n && N.eqb (id n) i) eqn:H; [|now rewrite H].
    now destruct (own (user w) (mark_read n) && N.eqb (id (mark_read n)) i).
  - destruct (N.eqb (id n) i) eqn:H; [|now rewrite H].
    now destruct (N.eqb (id (mark_read n)) i).
Qed.

Lemma mark_read_never_increases w :
  0 <= unreadCount w ->
  (forall fault i, unreadCount (markAsRead fault i w) <= unreadCount w) /\
  (forall fault, unreadCount (markAllAsRead fault w) <= unreadCount w).
Proof.
  intros H. split; intros fault.
  - intros i. unfold markAsRead. destruct fault; simpl; lia.
  - unfold markAllAsRead. destruct (user w); [destruct fault|]; simpl; lia.
Qed.

(** C5.  Two unread notifications, counter 2.  Marking notification 1
    read once leaves the counter at 1; marking it a second time, when it
    is already read, takes the counter to 0 although the rows and the
    cache do not change: the second call is not a no-op and twice is not
    the same as once. *)
Theorem markAsRead_twice_differs :
  table (markAsRead false 1%N (markAsRead false 1%N (two_notes false)))
    = table (markAsRead false 1%N (two_notes false)) /\
  notifications (markAsRead false 1%N (markAsRead false 1%N (two_notes false)))
    = notifications (markAsRead false 1%N (two_notes false)) /\
  unreadCount (markAsRead false 1%N (two_notes false)) = 1 /\
  unreadCount (markAsRead false 1%N (markAsRead false 1%N (two_notes false))) = 0 /\
  markAsRead false 1%N (markAsRead false 1%N (two_notes false))
    <> markAsRead false 1%N (two_notes false).
Proof.
  repeat split; try reflexivity. simpl. discriminate.
Qed.

(** What does hold: from a state whose counter equals the number of
    cached unread notifications, an operation leaves the counter
    non-negative, a deletion as long as its handler comes from a render
    that shows the notification as the cache holds it. *)
Lemma unreadCount_nonneg_current_render (op : Operation) (w : World) :
  reconciled w ->
  match op with
  | DeleteNotification rendered _ i =>
      find (fun n => N.eqb (id n) i) rendered
      = find (fun n => N.eqb (id n) i) (notifications w)
  | _ => True
  end ->
  0 <= unreadCount (run op w).
Proof.
  unfold reconciled. intros Hr Hop.
  pose proof (unread_in_nonneg (notifications w)) as H0.
  destruct op as [response|fault i|fault|rendered fault i|fault|n]; simpl run.
  - unfold loadNotifications.
    destruct (user w); [destruct response as [data|]|]; simpl; try lia.
    apply unread_in_nonneg.
  - unfold markAsRead. destruct fault; simpl; lia.
  - unfold markAllAsRead. destruct (user w); [destruct fault|]; simpl; lia.
  - unfold deleteNotification. destruct fault; simpl; [lia|]. rewrite Hop.
    destruct (find _ (notifications w)) as [m|] eqn:Hf; [|lia].
    destruct (read m) eqn:Hm; simpl; [lia|].
    apply find_some in Hf. destruct Hf as [Hin _].
    assert (1 <= unread_in (notifications w)).
    { apply (unread_in_pos m); [assumption|]. unfold unread. now rewrite Hm. }
    lia.
  - unfold clearAllNotifications. destruct (user w); [destruct fault|]; simpl; lia.
  - unfold onInsert. simpl. lia.
Qed.

(** C10.  The cache holds one notification, unread, and the counter is
    1.  The user asks twice for its deletion before the provider renders
    again, so both handlers come from the render that shows it.  The
    first answer empties the cache and takes the counter to 0, a state in
    which counter and cache agree.  On the second answer the handler
    still finds the notification, unread, in its render's array and
    decrements: the counter is -1. *)
Theorem deleteNotification_twice_negative :
  reconciled one_note /\
  reconciled (run (DeleteNotification (notifications one_note) false 2%N) one_note) /\
  unreadCount
    (run (DeleteNotification (notifications one_note) false 2%N)
       (run (DeleteNotification (notifications one_note) false 2%N) one_note))
  = -1.
Proof. repeat split. Qed.

End NotificationStoreFacts.

(** ** The document page *)
Section DocumentDetailsFacts.
Import DocumentDetails.
Local Open Scope string_scope.

Lemma forallb_map_id (l : list Signatory) :
  forallb is_signed l = forallb (fun b : bool => b) (map is_signed l).
Proof. induction l as [|x l IH]; simpl; [reflexivity|now rewrite IH]. Qed.

Lemma forallb_over_map {A B} (f : A -> B) (p : B -> bool) (l : list A) :
  forallb p (map f l) = forallb (fun x => p (f x)) l.
Proof. induction l as [|x l IH]; simpl; [reflexivity|now rewrite IH]. Qed.

Lemma forallb_same {A} (p q : A -> bool) (l : list A) :
  (forall x, p x = q x) -> forallb p l = forallb q l.
Proof.
  intros H. induction l as [|x l IH]; simpl; [reflexivity|now rewrite H, IH].
Qed.

(** When the store refuses the signatory update nothing else is sent and
    the state stays as it was. *)
Lemma updateSignatureStatus_fault rendered now now' id uid sid isSigned notes' st :
  let out := updateSignatureStatus rendered true now now' id uid sid isSigned notes' st in
  state out = st /\
  (forall i s, ~ In (UpdateDocumentStatus i s) (requests out)) /\
  toasts out = [toast_error "Failed to update signature status"].
Proof.
  simpl. repeat split. intros i s [H|[]]. discriminate.
Qed.

(** What an accepted update does.  The new list of signatories is the
    state's list with the flag of [sid] set.  The document is completed,
    in the state and by a request to the store, exactly when the list of
    the handler's render, with the flag of [sid] set, is signed
    throughout and the approval value of that render is not false. *)
Lemma updateSignatureStatus_decision rendered now now' id uid sid isSigned notes' st :
  let out := updateSignatureStatus rendered false now now' id uid sid isSigned notes' st in
  map sig_id (signatories (state out)) = map sig_id (signatories st) /\
  map is_signed (signatories (state out))
  = map (fun sg => if N.eqb (sig_id sg) sid then isSigned else is_signed sg)
      (signatories st) /\
  if forallb (fun sg => if N.eqb (sig_id sg) sid then isSigned else is_signed sg)
       (signatories rendered)
     && not_false (admin_approved (document rendered))
  then document (state out) = set_status completed (document st) /\
       In (UpdateDocumentStatus id completed) (requests out)
  else document (state out) = document st /\
       forall i s, ~ In (UpdateDocumentStatus i s) (requests out).
Proof.
  unfold updateSignatureStatus.
  cbv zeta. cbn [state signatories document requests].
  split; [|split].
  - rewrite map_map. apply map_ext. intros sg.
    now destruct (N.eqb (sig_id sg) sid).
  - rewrite map_map. apply map_ext. intros sg.
    now destruct (N.eqb (sig_id sg) sid).
  - rewrite forallb_over_map.
    replace (forallb (fun x => is_signed (if N.eqb (sig_id x) sid
                                          then with_is_signed isSigned x else x))
               (signatories rendered))
      with (forallb (fun sg => if N.eqb (sig_id sg) sid then isSigned else is_signed sg)
              (signatories rendered))
      by (apply forallb_same; intros sg; now destruct (N.eqb (sig_id sg) sid)).
    destruct (forallb _ _ && not_false _).
    + split; [reflexivity|]. simpl. tauto.
    + split; [reflexivity|]. intros i s [H|[H|[]]]; discriminate.
Qed.

(** From the render of the state the updaters receive, the document is
    completed exactly when, after the update, every signatory is signed
    and the approval value is not false. *)
Lemma updateSignatureStatus_current_render now now' id uid sid isSigned notes' st :
  let out := updateSignatureStatus st false now now' id uid sid isSigned notes' st in
  map is_signed (signatories (state out))
  = map (fun sg => if N.eqb (sig_id sg) sid then isSigned else is_signed sg)
      (signatories st) /\
  if forallb is_signed (signatories (state out))
     && not_false (admin_approved (document st))
  then document (state out) = set_status completed (document st) /\
       In (UpdateDocumentStatus id completed) (requests out)
  else document (state out) = document st /\
       forall i s, ~ In (UpdateDocumentStatus i s) (requests out).
Proof.
  pose proof (updateSignatureStatus_decision st now now' id uid sid isSigned notes' st)
    as H.
  cbv zeta in H |- *. destruct H as [_ [Hflags H]]. split; [exact Hflags|].
  rewrite (forallb_map_id (signatories _)), Hflags, forallb_over_map.
  exact H.
Qed.

(** C7.  An approved document has two signatories, neither signed.  Both
    are marked as signed before the page renders again, and the store
    accepts both updates.  Each call tests the list of its render, in
    which the other signatory is unsigned: after the second update every
    signatory is signed and the approval value is true, yet the status
    is still pending and neither call has asked the store to complete
    the document. *)
Theorem updateSignatureStatus_two_clicks :
  forallb is_signed (signatories (state second_click)) = true /\
  not_false (admin_approved (document (state second_click))) = true /\
  status (document (state second_click)) = pending /\
  (forall i s, ~ In (UpdateDocumentStatus i s)
                 (requests first_click ++ requests second_click)%list).
Proof.
  repeat split. intros i s H. simpl in H.
  repeat (destruct H as [H|H]; [discriminate|]). exact H.
Qed.

(** *** Progress *)

Lemma number_eqb_eq x y : number_eqb x y = true -> x = y.
Proof.
  destruct x, y; simpl; try discriminate; try reflexivity.
  - intros H. apply Bool.eqb_prop in H. now subst.
  - intros H. apply Bool.eqb_prop in H. now subst.
  - intros H. apply andb_true_iff in H. destruct H as [H He].
    apply andb_true_iff in H. destruct H as [Hs Hm].
    apply Bool.eqb_prop in Hs. apply Pos.eqb_eq in Hm. apply Z.eqb_eq in He.
    now subst.
Qed.

Lemma percent_agrees_below_40 :
  forallb (fun t => forallb (fun c => number_eqb (percent_of c t)
                                        (Js.of_int (exact_of c t)))
                      (seq 0 (S t)))
    (seq 0 40) = true.
Proof. vm_compute. reflexivity. Qed.

Lemma length_filter_le {A} (p : A -> bool) (l : list A) :
  (List.length (filter p l) <= List.length l)%nat.
Proof.
  induction l as [|x l IH]; simpl; [lia|]. destruct (p x); simpl; lia.
Qed.

(** No signatories, no progress. *)
Lemma getSignatureProgress_empty : getSignatureProgress [] = Js.of_int 0.
Proof. reflexivity. Qed.

(** With fewer than 40 signatories the displayed percentage is the
    rounded exact quotient. *)
Lemma getSignatureProgress_below_40 (l : list Signatory) :
  (List.length l < 40)%nat ->
  getSignatureProgress l = Js.of_int (spec_progress l).
Proof.
  intros Hlen.
  change (getSignatureProgress l)
    with (percent_of (List.length (filter is_signed l)) (List.length l)).
  change (spec_progress l)
    with (exact_of (List.length (filter is_signed l)) (List.length l)).
  apply number_eqb_eq.
  pose proof percent_agrees_below_40 as H.
  rewrite forallb_forall in H.
  assert (Ht : In (List.length l) (seq 0 40)) by (apply in_seq; lia).
  specialize (H _ Ht). rewrite forallb_forall in H.
  apply H. apply in_seq. pose proof (length_filter_le is_signed l). lia.
Qed.

(** The dashboard computes the same percentage. *)
Lemma dashboard_getSignatureProgress_same (l : list Signatory) :
  percentage (dashboard_getSignatureProgress (Some l)) = getSignatureProgress l /\
  percentage (dashboard_getSignatureProgress None) = Js.of_int 0.
Proof.
  split; [|reflexivity]. destruct l as [|x l]; reflexivity.
Qed.

(** C9.  Of 40 signatories, 23 have signed: 100 x 23 / 40 is 57.5, which
    rounds to 58, and the page displays 57, because 23 / 40 x 100 is
    57.49999999999999 as a Number.  No rule for halves accounts for it:
    with 3 of 40 signed, 7.5 is displayed as 8. *)
Theorem getSignatureProgress_23_of_40 :
  getSignatureProgress (signed_first 23 40) = Js.of_int 57 /\
  spec_progress (signed_first 23 40) = 58%Z /\
  percentage (dashboard_getSignatureProgress (Some (signed_first 23 40)))
    = Js.of_int 57 /\
  getSignatureProgress (signed_first 3 40) = Js.of_int 8.
Proof. vm_compute. repeat split; reflexivity. Qed.

End DocumentDetailsFacts.

(** ** The creation page *)
Section CreateDocumentFacts.
Import CreateDocument.
Local Open Scope string_scope.

(** A file over 10 MiB, or of a type outside the list, is turned away
    with its own message before anything is uploaded. *)
Lemma handleFileUpload_rejects file user_id now upload_error publicUrl st :
  (size file > max_size)%Z \/ ~ In (type file) allowedTypes ->
  exists msg,
    handleFileUpload (Some file) user_id now upload_error publicUrl st
    = (st, [toast_error msg]) /\
    (msg = "File size must be less than 10MB" \/
     msg = "Only PDF, DOC, DOCX, PNG, and JPG files are allowed").
Proof.
  intros H. unfold handleFileUpload.
  destruct (Z.gtb_spec (size file) max_size) as [Hbig|Hsmall].
  - eexists. split; [reflexivity|]. now left.
  - destruct H as [H|H]; [lia|].
    destruct (existsb (String.eqb (type file)) allowedTypes) eqn:Hex.
    + exfalso. apply H. apply existsb_exists in Hex.
      destruct Hex as [t [Hin Heq]]. apply String.eqb_eq in Heq. now subst.
    + eexists. split; [reflexivity|]. now right.
Qed.

Lemma validate_signatories_rejections index l :
  Forall (fun e => is_write e = false /\ is_rejection e = true)
    (validate_signatories index l).
Proof.
  revert index. induction l as [|f l IH]; intros index; simpl; [constructor|].
  destruct (JsText.truthy (f_name f)); simpl; [|constructor; [now split|]]; apply IH.
Qed.

Lemma validate_signatories_missing index l :
  (exists f, In f l /\ f_name f = []) -> validate_signatories index l <> [].
Proof.
  revert index. induction l as [|f l IH]; intros index [g [Hin Hg]]; [destruct Hin|].
  simpl. destruct Hin as [->|Hin].
  - rewrite Hg. simpl. discriminate.
  - destruct (JsText.truthy (f_name f)); simpl; [|discriminate].
    apply IH. now exists g.
Qed.

Lemma validate_rejections data :
  Forall (fun e => is_write e = false /\ is_rejection e = true) (validate data).
Proof.
  unfold validate. apply Forall_app. split; [|apply validate_signatories_rejections].
  destruct (String.eqb (d_name data) ""); [repeat constructor|].
  destruct (Nat.ltb _ 3); repeat constructor.
Qed.

(** What is rejected.  An attempt with a file that is too large or of a
    type outside the list, or a submission without an uploaded file,
    without a document name or with an empty signatory name, changes no
    state, sends no write to the store or to file storage, and produces
    at least one message, each of its effects being such a message. *)
Lemma invalid_attempt_rejected (a : Attempt) (user_id : uuid) (st : State) :
  invalid a st ->
  fst (attempt a user_id st) = st /\
  snd (attempt a user_id st) <> [] /\
  Forall (fun e => is_write e = false /\ is_rejection e = true)
    (snd (attempt a user_id st)).
Proof.
  destruct a as [file now upload_error publicUrl|data document_insert signatories_error];
    simpl invalid; intros H.
  - destruct (handleFileUpload_rejects file user_id now upload_error publicUrl st H)
      as [msg [Heq _]].
    unfold attempt. rewrite Heq. simpl.
    split; [reflexivity|]. split; [discriminate|]. now repeat constructor.
  - unfold attempt, handleSubmit.
    pose proof (validate_rejections data) as Hv.
    destruct (validate data) as [|e errors] eqn:Hval.
    + unfold onSubmit. destruct H as [H|[H|H]].
      * rewrite H. simpl. split; [reflexivity|]. split; [discriminate|].
        now repeat constructor.
      * exfalso. unfold validate in Hval. rewrite H in Hval. discriminate.
      * exfalso. unfold validate in Hval.
        apply app_eq_nil in Hval. destruct Hval as [_ Hval].
        now apply (@validate_signatories_missing 0 (d_signatories data) H).
    + simpl. split; [reflexivity|]. split; [discriminate|]. exact Hv.
Qed.

(** The form does not let go of its last signatory entry. *)
Lemma removeSignatory_last index fields :
  (List.length fields <= 1)%nat ->
  removeSignatory index fields
  = (fields, [toast_error "At least one signatory is required"]).
Proof.
  intros H. unfold removeSignatory.
  destruct (Nat.ltb_spec 1 (List.length fields)); [lia|reflexivity].
Qed.

(** A name of white space only is truthy, so the rule of the input lets
    it pass, and its trimmed form is empty, so [onSubmit] leaves the
    entry out. *)
Lemma trimEnd_blank s : JsText.trimEnd s = [] <-> JsText.blank s = true.
Proof.
  induction s as [|u s IH]; simpl; [tauto|].
  destruct (JsText.trimEnd s) as [|k kept] eqn:Hk.
  - destruct (JsText.is_white_space u); simpl.
    + rewrite <- IH. tauto.
    + split; discriminate.
  - split; [discriminate|]. intros H. apply andb_true_iff in H.
    destruct H as [_ H]. apply IH in H. discriminate.
Qed.

Lemma trimStart_blank s : JsText.blank (JsText.trimStart s) = JsText.blank s.
Proof.
  induction s as [|u s IH]; simpl; [reflexivity|].
  destruct (JsText.is_white_space u) eqn:Hu; simpl; [exact IH|].
  now rewrite Hu.
Qed.

Lemma trim_blank s : JsText.truthy (JsText.trim s) = negb (JsText.blank s).
Proof.
  unfold JsText.trim. rewrite <- (trimStart_blank s).
  destruct (JsText.trimEnd (JsText.trimStart s)) as [|k kept] eqn:Hk.
  - apply trimEnd_blank in Hk. now rewrite Hk.
  - destruct (JsText.blank (JsText.trimStart s)) eqn:Hb; [|reflexivity].
    apply trimEnd_blank in Hb. congruence.
Qed.

(** With a file uploaded, values that pass the rules and a document
    insert that succeeds, a form all of whose signatory names are white
    space goes through: the document row is written, no signatory row
    is, and success is reported. *)
Lemma blank_names_accepted data user_id document_id signatories_error uploaded :
  validate data = [] ->
  Forall (fun f => JsText.blank (f_name f) = true) (d_signatories data) ->
  attempt (submit data (inl document_id) signatories_error) user_id
    (mkState (Some uploaded))
  = (mkState (Some uploaded),
     [insert_document
        (mkDocumentData (d_name data) (d_description data) (up_url uploaded)
           (up_name uploaded) user_id (d_requires_admin_approval data) pending);
      insert_activity document_id user_id "created" "Document tracker created";
      toast_success "Document tracker created successfully!";
      navigate document_id]).
Proof.
  intros Hv Hb. unfold attempt, handleSubmit. rewrite Hv.
  unfold onSubmit. cbn [uploadedFile].
  assert (Hf : filter (fun sg => JsText.truthy (JsText.trim (f_name sg)))
                 (d_signatories data) = []).
  { induction Hb as [|f l Hf _ IH]; [reflexivity|].
    simpl. now rewrite trim_blank, Hf. }
  rewrite Hf. cbn [indexed List.length Nat.ltb Nat.leb andb]. rewrite andb_false_r.
  reflexivity.
Qed.

(** C8.  A file is uploaded, the document is named, and the name of the
    only signatory entry is a space.  The rule 'Name is required' lets
    the value pass, no message is produced, and the submission is
    accepted: the document row is inserted and success is reported, but
    no signatory row is written, the entry having been filtered out for
    its blank name. *)
Theorem blank_signatory_name_accepted :
  validate blank_signatory = [] /\
  attempt (submit blank_signatory (inl 10%N) None) 1%N (mkState (Some budget_pdf))
  = (mkState (Some budget_pdf), accepted) /\
  existsb is_write accepted = true /\
  existsb is_rejection accepted = false /\
  (forall rows, ~ In (insert_signatories rows) accepted).
Proof.
  repeat split. intros rows H. simpl in H.
  repeat (destruct H as [H|H]; [discriminate|]). exact H.
Qed.

End CreateDocumentFacts.

(** ** The store *)
Section StoreFacts.
Import Sql Store.
Local Open Scope string_scope.

(** A document inserted without a creator cannot be announced: the
    trigger raises when any user (other than one with the all-zero id)
    exists. *)
Lemma notify_document_created_without_creator db NEW :
  created_by NEW = None ->
  (exists u, In u (users db) /\ user_id u <> nil_uuid) ->
  notify_document_created db NEW = Raise (not_null_violation "message").
Proof.
  intros Hc [u [Hin Hu]].
  unfold notify_document_created, create_notification_for_users.
  rewrite Hc. cbn [select_full_name sql_eq is_true concat coalesce].
  assert (Hfind : forall l : list User, find (fun _ : User => false) l = None)
    by (induction l; auto).
  unfold select_full_name.
  change (find (fun u0 : User => is_true (sql_eq N.eqb (Some (user_id u0)) None))
            (users db))
    with (find (fun _ : User => false) (users db)).
  rewrite Hfind.
  cbn [concat].
  destruct (filter _ (users db)) as [|x l] eqn:Hf.
  - exfalso.
    assert (Hx : In u (filter (fun u0 => is_true (sql_neq N.eqb (Some (user_id u0))
                                                  (Some nil_uuid))) (users db))).
    { apply filter_In. split; [assumption|]. simpl.
      now destruct (N.eqb_spec (user_id u) nil_uuid). }
    unfold coalesce in Hf. rewrite Hf in Hx. destruct Hx.
  - reflexivity.
Qed.

Lemma notify_document_created_without_creator_witness :
  notify_document_created (club None)
    (mkDocument 11 "Orphan" None None None None None None None None pending)
  = Raise (not_null_violation "message").
Proof.
  apply notify_document_created_without_creator; [reflexivity|].
  exists ann. split; [simpl; tauto|discriminate].
Defined.

(** Excluding an id that no user has (or nobody, when no user has the
    all-zero id) notifies every user, in table order; for a document id
    that is NULL or that of a stored document, every row satisfies the
    two foreign keys of the table. *)
Lemma create_notification_for_users_all db t m ty d j excl :
  In ty notification_types ->
  ~ In (coalesce excl nil_uuid) (map user_id (users db)) ->
  (forall i, d = Some i -> In i (map doc_id (documents db))) ->
  exists rows,
    create_notification_for_users db (Some t) (Some m) (Some ty) d j excl = Ok rows /\
    map n_user_id rows = map (fun u => Some (user_id u)) (users db) /\
    Forall (fun r => n_title r = Some t /\ n_message r = Some m /\
                     n_type r = Some ty /\ n_document_id r = d /\ n_data r = j /\
                     references_hold db r = true) rows.
Proof.
  intros Hty Hex Hdoc. unfold create_notification_for_users.
  assert (Hall : filter (fun u => is_true (sql_neq N.eqb (Some (user_id u))
                                             (Some (coalesce excl nil_uuid))))
                   (users db) = users db).
  { apply forallb_filter_id, forallb_forall. intros u Hu. simpl.
    destruct (N.eqb_spec (user_id u) (coalesce excl nil_uuid)) as [E|]; [|reflexivity].
    exfalso. apply Hex. rewrite <- E. now apply in_map. }
  rewrite Hall. eexists. split; [|split].
  - apply insert_notifications_ok. apply Forall_forall. intros r Hr.
    apply in_map_iff in Hr. destruct Hr as [u [<- _]]. now apply check_row_ok.
  - rewrite map_map. reflexivity.
  - apply Forall_forall. intros r Hr.
    apply in_map_iff in Hr. destruct Hr as [u [<- Hu]]. simpl.
    repeat split. unfold references_hold. simpl. apply andb_true_iff. split.
    + apply existsb_exists. exists u. split; [assumption|apply N.eqb_refl].
    + destruct d as [i|]; [|reflexivity].
      specialize (Hdoc i eq_refl). apply in_map_iff in Hdoc.
      destruct Hdoc as [x [Hx Hin]]. apply existsb_exists. exists x.
      split; [assumption|]. now apply N.eqb_eq.
Qed.

Lemma create_notification_for_users_all_witness :
  exists rows,
    create_notification_for_users (club None) (Some "Notice") (Some "Hello")
      (Some "comment_added") (Some 10%N) [] None = Ok rows /\
    map n_user_id rows = [Some 1%N; Some 2%N; Some 3%N] /\
    Forall (fun r => references_hold (club None) r = true) rows.
Proof.
  destruct (@create_notification_for_users_all (club None) "Notice" "Hello"
              "comment_added" (Some 10%N) [] None) as [rows [H [Hids Hall]]].
  - simpl. tauto.
  - simpl. intuition discriminate.
  - intros i Hi. injection Hi as <-. simpl. tauto.
  - exists rows. split; [exact H|]. split; [exact Hids|].
    apply Forall_forall. intros r Hr. rewrite Forall_forall in Hall.
    now destruct (Hall r Hr) as [_ [_ [_ [_ [_ Href]]]]].
Defined.

(** *** Sign-up *)

Lemma before_at_no_at s : JsString.contains "@"%char (before_at s) = false.
Proof.
  induction s as [|c s IH]; [reflexivity|]. cbn [before_at].
  destruct (Ascii.eqb c "@") eqn:E; [reflexivity|]. cbn [JsString.contains].
  rewrite Ascii.eqb_sym, E. exact IH.
Qed.

Lemma NoDup_snoc {A} (x : A) (l : list A) :
  NoDup l -> ~ In x l -> NoDup (l ++ [x]).
Proof.
  intros Hl Hx. apply NoDup_app; [assumption|repeat constructor; intros []|].
  intros a Ha [<-|[]]. contradiction.
Qed.

(** When [handle_new_user] succeeds it adds one user, with the id and
    email of the new account, and user ids and emails stay distinct.
    The role is member unless the sign-up data say admin, and a name
    taken from the email has no '@' in it. *)
Lemma handle_new_user_keeps_keys NEW db db' :
  handle_new_user NEW db = inl db' ->
  NoDup (map user_id (users db)) ->
  NoDup (map email (users db)) ->
  exists u,
    users db' = (users db ++ [u])%list /\
    user_id u = au_id NEW /\
    au_email NEW = Some (email u) /\
    NoDup (map user_id (users db')) /\
    NoDup (map email (users db')) /\
    (json_text_at (raw_user_meta_data NEW) "role" <> Some "admin" -> role u = member) /\
    (json_text_at (raw_user_meta_data NEW) "full_name" = None ->
     full_name u = before_at (email u) /\
     JsString.contains "@"%char (full_name u) = false) /\
    documents db' = documents db /\
    document_comments db' = document_comments db.
Proof.
  unfold handle_new_user. intros H Hids Hemails.
  destruct (au_email NEW) as [e|]; [|discriminate].
  destruct (coalesce2 _ _) as [nm|] eqn:Hnm; [|discriminate].
  set (r := coalesce (json_text_at (raw_user_meta_data NEW) "role") "member") in *.
  destruct (if r =? "admin" then Some admin
            else if r =? "member" then Some member else None) as [ro|] eqn:Hro;
    [|discriminate].
  destruct (existsb (fun u => N.eqb (user_id u) (au_id NEW)) (users db)) eqn:Hid;
    [discriminate|].
  destruct (existsb (fun u => String.eqb (email u) e) (users db)) eqn:Hem;
    [discriminate|].
  injection H as <-. exists (mkUser (au_id NEW) e nm ro). simpl.
  repeat split.
  - rewrite map_app. apply NoDup_snoc; [assumption|]. simpl.
    intros Hin. apply in_map_iff in Hin. destruct Hin as [u [Hu Hin]].
    assert (Hex : existsb (fun u => N.eqb (user_id u) (au_id NEW)) (users db) = true).
    { apply existsb_exists. exists u. split; [assumption|]. now apply N.eqb_eq. }
    congruence.
  - rewrite map_app. apply NoDup_snoc; [assumption|]. simpl.
    intros Hin. apply in_map_iff in Hin. destruct Hin as [u [Hu Hin]].
    assert (Hex : existsb (fun u => String.eqb (email u) e) (users db) = true).
    { apply existsb_exists. exists u. split; [assumption|]. now apply String.eqb_eq. }
    congruence.
  - intros Hrole. unfold r in Hro.
    destruct (json_text_at (raw_user_meta_data NEW) "role") as [txt|]; simpl in Hro.
    + destruct (String.eqb_spec txt "admin") as [->|_]; [congruence|].
      destruct (txt =? "member"); congruence.
    + congruence.
  - rewrite H in Hnm. simpl in Hnm. congruence.
  - rewrite H in Hnm. simpl in Hnm. injection Hnm as <-. apply before_at_no_at.
Qed.

Lemma handle_new_user_keeps_keys_witness :
  exists u,
    users (mkDatabase [ann; bob; cy; mkUser 4 "dee@club.org" "dee" member] [] [])
    = ([ann; bob; cy] ++ [u])%list /\
    role u = member /\ full_name u = "dee".
Proof.
  destruct (@handle_new_user_keeps_keys
              (mkAuthUser 4 (Some "dee@club.org") (Some []))
              (mkDatabase [ann; bob; cy] [] [])
              (mkDatabase [ann; bob; cy; mkUser 4 "dee@club.org" "dee" member] [] []))
    as [u [Hu [_ [_ [_ [_ [Hrole [Hname _]]]]]]]].
  - reflexivity.
  - simpl. repeat constructor; simpl; intuition discriminate.
  - simpl. repeat constructor; simpl; intuition discriminate.
  - exists u. split; [exact Hu|]. split.
    + apply Hrole. discriminate.
    + simpl in Hu. injection Hu as <-. reflexivity.
Defined.

(** *** Deleting and approving a document *)

(** With the primary key, the row a statement finds by id is the row of
    that id. *)
Lemma find_document id (p : Document -> bool) docs OLD :
  NoDup (map doc_id docs) ->
  In OLD docs -> doc_id OLD = id -> p OLD = true ->
  find (fun d => N.eqb (doc_id d) id && p d) docs = Some OLD.
Proof.
  induction docs as [|d docs IH]; intros Hnd Hin Hid Hp; [destruct Hin|].
  simpl in Hnd. inversion Hnd as [|? ? Hni Hnd']; subst.
  cbn [find]. destruct Hin as [->|Hin].
  - now rewrite N.eqb_refl, Hp.
  - destruct (N.eqb_spec (doc_id d) (doc_id OLD)) as [E|_].
    + exfalso. apply Hni. rewrite E. now apply in_map.
    + now apply IH.
Qed.

Lemma Store_delete_document_raises auth_uid id t :
  (forall OLD, In OLD (documents (base t)) -> doc_id OLD = id ->
     may_modify_document (base t) auth_uid OLD = true ->
     delete_document auth_uid id t = Raise srf_in_where) /\
  (forall t' inserted, delete_document auth_uid id t = Ok (t', inserted) ->
     t' = t /\ inserted = []).
Proof.
  unfold delete_document.
  destruct (find _ (documents (base t))) as [OLD'|] eqn:Hf.
  - split; [reflexivity|discriminate].
  - split.
    + intros OLD Hin Hid Hmay. apply (find_none _ _ Hf) in Hin.
      rewrite Hid, N.eqb_refl, Hmay in Hin. discriminate.
    + intros t' inserted H. injection H as <- <-. now split.
Qed.

(** With the triggers of the schema in place no document is ever
    deleted.  The delete of a row the policy admits runs the BEFORE
    DELETE trigger, whose notification function PostgreSQL rejects, and
    is aborted; a delete the policy does not admit, or of an id no
    document has, is answered without an error and changes nothing. *)
Lemma delete_document_aborted auth_uid id t :
  (forall OLD, In OLD (documents (base t)) -> doc_id OLD = id ->
     may_modify_document (base t) auth_uid OLD = true ->
     delete_document auth_uid id t = Raise srf_in_where) /\
  ((forall d, In d (documents (base t)) -> doc_id d = id ->
      may_modify_document (base t) auth_uid d = false) ->
   delete_document auth_uid id t = Ok (t, [])) /\
  (forall t' inserted, delete_document auth_uid id t = Ok (t', inserted) ->
     t' = t /\ inserted = []).
Proof.
  destruct (Store_delete_document_raises auth_uid id t) as [Hraise Hsame].
  split; [exact Hraise|]. split; [|exact Hsame].
  intros Hnone. unfold delete_document.
  destruct (find _ (documents (base t))) as [OLD'|] eqn:Hf; [|reflexivity].
  apply find_some in Hf. destruct Hf as [Hin Hok].
  apply andb_true_iff in Hok. destruct Hok as [Hid Hmay]. apply N.eqb_eq in Hid.
  rewrite (Hnone OLD' Hin Hid) in Hmay. discriminate.
Qed.

Lemma delete_document_aborted_witness :
  delete_document (Some 1%N) 10 club_tables = Raise srf_in_where.
Proof.
  apply (proj1 (delete_document_aborted (Some 1%N) 10 club_tables)
           (budget_request (Some true))).
  - simpl. tauto.
  - reflexivity.
  - reflexivity.
Defined.

(** With the triggers of the schema in place a recorded decision is
    never reversed.  An update that takes admin_approved from false to
    true, or from true to false, on a row the policy admits is aborted:
    by the foreign key if the approving id is no user's, otherwise by
    the AFTER UPDATE trigger, whose notification function PostgreSQL
    rejects.  Recording the value the row already holds is accepted and
    inserts no notification. *)
Lemma approval_change_aborted auth_uid id approved by_ at_ t OLD :
  NoDup (map doc_id (documents (base t))) ->
  In OLD (documents (base t)) ->
  doc_id OLD = id ->
  may_modify_document (base t) auth_uid OLD = true ->
  (admin_approved OLD = Some (negb approved) ->
   exists e, update_approval auth_uid id approved by_ at_ t = Raise e) /\
  (admin_approved OLD = Some approved ->
   In by_ (map user_id (users (base t))) ->
   exists t',
     update_approval auth_uid id approved by_ at_ t = Ok t' /\
     notifications t' = notifications t /\
     In (approved_row approved by_ at_ OLD) (documents (base t'))).
Proof.
  intros Hnd Hin Hid Hmay. unfold update_approval. cbv zeta.
  rewrite (@find_document id (may_modify_document (base t) auth_uid)
             (documents (base t)) OLD Hnd Hin Hid Hmay).
  split.
  - intros Hold.
    destruct (negb (existsb _ (users (base t)))); [eexists; reflexivity|].
    rewrite (@notify_status_updated_changed _ auth_uid OLD
               (approved_row approved by_ at_ OLD) (negb approved) approved Hold eq_refl)
      by (now destruct approved).
    eexists. reflexivity.
  - intros Hold Hby.
    replace (existsb (fun u => N.eqb (user_id u) by_) (users (base t))) with true.
    + cbn [negb].
      rewrite notify_status_updated_same_value by (now rewrite Hold).
      cbn [bind]. eexists. split; [reflexivity|]. cbn [notifications base documents].
      split; [apply app_nil_r|].
      apply in_map_iff. exists OLD. split; [|assumption].
      now rewrite Hid, N.eqb_refl, Hmay.
    + symmetry. apply existsb_exists. apply in_map_iff in Hby.
      destruct Hby as [u [Hu Hin']]. exists u. split; [assumption|]. now apply N.eqb_eq.
Qed.

Lemma approval_change_aborted_witness :
  exists e,
    update_approval (Some 2%N) 10 false 2 1700000500%Z club_tables = Raise e.
Proof.
  apply (proj1 (@approval_change_aborted (Some 2%N) 10 false 2 1700000500%Z club_tables
                  (budget_request (Some true))
                  ltac:(simpl; repeat constructor; simpl; tauto)
                  ltac:(simpl; tauto) eq_refl eq_refl)).
  reflexivity.
Defined.

End StoreFacts.

(** ** The document page: approval, deletion, comments *)
Section DocumentPageFacts.
Import DocumentDetails DocumentPage.
Local Open Scope string_scope.

(** While the render a handler comes from shows the approval value
    false, its signature update does not complete the document, however
    many signatories have signed and whatever the state has become: the
    document is left as it was and no status update is sent. *)
Lemma updateSignatureStatus_blocked rendered fault now now' id uid sid isSigned notes' st :
  admin_approved (document rendered) = Some false ->
  document (state (updateSignatureStatus rendered fault now now' id uid sid isSigned
                     notes' st))
  = document st /\
  forall i s, ~ In (UpdateDocumentStatus i s)
                (requests (updateSignatureStatus rendered fault now now' id uid sid
                             isSigned notes' st)).
Proof.
  intros H. unfold updateSignatureStatus.
  destruct fault; cbv zeta; cbn [state document requests].
  - split; [reflexivity|]. intros i s [E|[]]. discriminate.
  - rewrite H. cbn [not_false]. rewrite andb_false_r.
    split; [reflexivity|]. intros i s [E|[E|[]]]; discriminate.
Qed.

Lemma updateSignatureStatus_blocked_witness :
  document (state (updateSignatureStatus
                     (mkState (Sql.budget_request (Some false)) [signatory_row 31 false])
                     false 5 6 10 2 31 true "" budget_page))
  = document budget_page.
Proof.
  exact (proj1 (@updateSignatureStatus_blocked
                  (mkState (Sql.budget_request (Some false)) [signatory_row 31 false])
                  false 5 6 10 2 31 true "" budget_page eq_refl)).
Defined.

(** A locked document is one whose approval value is false. *)
Lemma isDocumentLocked_false_approval d :
  isDocumentLocked (Some d) = true -> admin_approved d = Some false.
Proof.
  unfold isDocumentLocked.
  destruct (requires_admin_approval d) as [[|]|]; try discriminate.
  destruct (admin_approved d) as [[|]|]; try discriminate. reflexivity.
Qed.


(** Setting the flag of a signatory of a list signed throughout to
    false and then back to true gives a list signed throughout. *)
Lemma flags_undo_redo sid at1 at2 n1 n2 (l : list Signatory) :
  forallb is_signed l = true ->
  forallb (fun sg => if N.eqb (sig_id sg) sid then true else is_signed sg)
    (map (fun sg => if N.eqb (sig_id sg) sid
                    then signed_locally false at1 n1 sg else sg) l) = true /\
  forallb is_signed
    (map (fun sg => if N.eqb (sig_id sg) sid then signed_locally true at2 n2 sg else sg)
       (map (fun sg => if N.eqb (sig_id sg) sid
                       then signed_locally false at1 n1 sg else sg) l)) = true.
Proof.
  intros Hall. rewrite forallb_forall in Hall. split.
  - apply forallb_forall. intros x Hx. apply in_map_iff in Hx.
    destruct Hx as [sg [<- Hsg]].
    destruct (N.eqb (sig_id sg) sid) eqn:E; cbn [signed_locally sig_id].
    + now rewrite E.
    + rewrite E. now apply Hall.
  - apply forallb_forall. intros x Hx. apply in_map_iff in Hx.
    destruct Hx as [y [<- Hy]]. apply in_map_iff in Hy.
    destruct Hy as [sg [<- Hsg]].
    destruct (N.eqb (sig_id sg) sid) eqn:E; cbn [signed_locally sig_id].
    + now rewrite E.
    + rewrite E. now apply Hall.
Qed.

(** An approval never touches the status or the signatories.  So
    approving a document whose signatories have all signed leaves its
    status where it was, and the page then offers, per signatory, the
    undo button only.  Pressing it leaves the status where it was too;
    marking that signatory as signed again completes the document.  Each
    handler comes from the render of the state it acts on. *)
Lemma approval_then_signature busy fault now id uid approved st :
  status (document (after (handleAdminApproval busy fault now id uid approved st)))
  = status (document st) /\
  signatories (after (handleAdminApproval busy fault now id uid approved st))
  = signatories st /\
  (forallb is_signed (signatories st) = true ->
   forall sg now1 now2 now3 now4 notes1 notes2,
     In sg (signatories st) ->
     let st1 := after (handleAdminApproval false false now id uid true st) in
     let st2 := state (updateSignatureStatus st1 false now1 now2 id uid (sig_id sg)
                         false notes1 st1) in
     let st3 := state (updateSignatureStatus st2 false now3 now4 id uid (sig_id sg)
                         true notes2 st2) in
     status (document st2) = status (document st) /\
     forallb is_signed (signatories st2) = false /\
     status (document st3) = completed /\
     forallb is_signed (signatories st3) = true).
Proof.
  split; [|split].
  - unfold handleAdminApproval. destruct busy, fault; reflexivity.
  - unfold handleAdminApproval. destruct busy, fault; reflexivity.
  - intros Hall sg now1 now2 now3 now4 notes1 notes2 Hsg st1 st2 st3.
    assert (Hundone :
      forallb (fun x => if N.eqb (sig_id x) (sig_id sg) then false else is_signed x)
        (signatories st) = false).
    { apply not_true_is_false. intros Hf.
      rewrite forallb_forall in Hf. specialize (Hf sg Hsg).
      rewrite N.eqb_refl in Hf. discriminate. }
    pose proof (updateSignatureStatus_decision st1 now1 now2 id uid (sig_id sg) false
                  notes1 st1) as H2.
    cbv zeta in H2. fold st2 in H2. destruct H2 as [_ [Hflags2 Hdoc2]].
    change (signatories st1) with (signatories st) in Hflags2, Hdoc2.
    rewrite Hundone in Hdoc2. cbn [andb] in Hdoc2. destruct Hdoc2 as [Hdoc2 _].
    assert (Hst2 : forallb is_signed (signatories st2) = false).
    { rewrite forallb_map_id, Hflags2, forallb_over_map. exact Hundone. }
    pose proof (updateSignatureStatus_decision st2 now3 now4 id uid (sig_id sg) true
                  notes2 st2) as H3.
    cbv zeta in H3. fold st3 in H3. destruct H3 as [_ [Hflags3 Hdoc3]].
    destruct (@flags_undo_redo (sig_id sg) None (Some now4) notes1 notes2
                (signatories st) Hall) as [Hredo Hst3].
    replace (forallb (fun x => if N.eqb (sig_id x) (sig_id sg) then true else is_signed x)
               (signatories st2)) with true in Hdoc3 by (symmetry; exact Hredo).
    rewrite Hdoc2 in Hdoc3.
    change (admin_approved (document st1)) with (Some true) in Hdoc3.
    cbn [andb not_false] in Hdoc3. destruct Hdoc3 as [Hdoc3 _].
    repeat split.
    + now rewrite Hdoc2.
    + exact Hst2.
    + now rewrite Hdoc3.
    + exact Hst3.
Qed.

Lemma approval_then_signature_witness :
  forallb is_signed (signatories signed_page) = true /\
  status (document (state (updateSignatureStatus undone_page false 9 10 10 2 31 true ""
                             undone_page)))
  = completed.
Proof.
  split; [reflexivity|].
  exact (proj1 (proj2 (proj2
           (proj2 (proj2 (@approval_then_signature false false 6 10 2 true signed_page))
              eq_refl (signatory_row 31 true) 7%Z 8%Z 9%Z 10%Z "" ""
              (or_introl eq_refl))))).
Defined.

Lemma same_id_same_user (l : list User) p u :
  NoDup (map user_id l) -> In p l -> In u l -> user_id u = user_id p -> u = p.
Proof.
  induction l as [|x l IH]; simpl; [tauto|].
  intros Hnd Hp Hu E. inversion Hnd as [|? ? Hni Hnd']; subst.
  destruct Hp as [->|Hp], Hu as [->|Hu]; auto.
  - exfalso. apply Hni. rewrite <- E. now apply in_map.
  - exfalso. apply Hni. rewrite E. now apply in_map.
Qed.

(** The delete button is shown to exactly the users the row-level
    policy lets delete the document: for a loaded document and a
    signed-in user whose profile is their row in users. *)
Lemma canUserDelete_is_policy db p d :
  NoDup (map user_id (Sql.users db)) ->
  In p (Sql.users db) ->
  canUserDelete (Some p) (Some d) (Some (user_id p))
  = Store.may_modify_document db (Some (user_id p)) d.
Proof.
  intros Hnd Hp.
  assert (Hadmin : Store.is_admin db (Some (user_id p)) = Role_eqb (role p) admin).
  { unfold Store.is_admin. destruct (Role_eqb (role p) admin) eqn:Hr.
    - apply existsb_exists. exists p. split; [assumption|].
      simpl. now rewrite N.eqb_refl, Hr.
    - destruct (existsb _ (Sql.users db)) eqn:Hex; [|reflexivity].
      apply existsb_exists in Hex. destruct Hex as [u [Hu Hua]].
      apply andb_true_iff in Hua. destruct Hua as [Hid Hrole]. simpl in Hid.
      destruct (N.eqb_spec (user_id u) (user_id p)) as [E|]; [|discriminate].
      rewrite (@same_id_same_user _ _ _ Hnd Hp Hu E) in Hrole. congruence. }
  unfold canUserDelete, Store.may_modify_document. rewrite Hadmin.
  unfold created_by_of, id_of. destruct (created_by d) as [c|]; simpl.
  - rewrite (N.eqb_sym c). destruct (N.eqb (user_id p) c), (Role_eqb (role p) admin);
      reflexivity.
  - destruct (Role_eqb (role p) admin); reflexivity.
Qed.

Lemma canUserDelete_is_policy_witness :
  canUserDelete (Some Sql.cy) (Some (Sql.budget_request None)) (Some 3%N) = false /\
  Store.may_modify_document (Sql.club None) (Some 3%N) (Sql.budget_request None) = false.
Proof.
  pose proof (@canUserDelete_is_policy (Sql.club None) Sql.cy (Sql.budget_request None))
    as H.
  assert (E : canUserDelete (Some Sql.cy) (Some (Sql.budget_request None))
                (Some (user_id Sql.cy)) = false) by reflexivity.
  rewrite H in E.
  - split; [reflexivity|exact E].
  - simpl. repeat constructor; simpl; intuition discriminate.
  - simpl. tauto.
Defined.



(** *** Comments *)

Lemma trimStart_first s c :
  hd_error (JsText.trimStart s) = Some c -> JsText.is_white_space c = false.
Proof.
  induction s as [|d s IH]; [discriminate|]. cbn [JsText.trimStart].
  destruct (JsText.is_white_space d) eqn:E; [exact IH|].
  cbn [hd_error]. now intros [= <-].
Qed.

Lemma trimEnd_last s c :
  JsText.last_unit (JsText.trimEnd s) = Some c -> JsText.is_white_space c = false.
Proof.
  induction s as [|d s IH]; [discriminate|]. cbn [JsText.trimEnd].
  destruct (JsText.trimEnd s) as [|k kept].
  - destruct (JsText.is_white_space d) eqn:E; [discriminate|].
    cbn [JsText.last_unit]. now intros [= <-].
  - cbn [JsText.last_unit] in *. exact IH.
Qed.

Lemma trimEnd_first s c :
  hd_error (JsText.trimEnd s) = Some c -> hd_error s = Some c.
Proof.
  destruct s as [|d s]; [discriminate|]. cbn [JsText.trimEnd].
  destruct (JsText.trimEnd s); [destruct (JsText.is_white_space d)|];
    try discriminate; exact (fun H => H).
Qed.

(** What trimming takes away is white space at the two ends. *)
Lemma trimStart_split s :
  exists lead, s = (lead ++ JsText.trimStart s)%list /\ JsText.blank lead = true.
Proof.
  induction s as [|d s [lead [Hs Hb]]]; [now exists []|].
  cbn [JsText.trimStart]. destruct (JsText.is_white_space d) eqn:E.
  - exists (d :: lead). split; [simpl; now rewrite <- Hs|]. simpl. now rewrite E.
  - now exists [].
Qed.

Lemma trimEnd_split s :
  exists trail, s = (JsText.trimEnd s ++ trail)%list /\ JsText.blank trail = true.
Proof.
  induction s as [|d s [trail [Hs Hb]]]; [now exists []|].
  cbn [JsText.trimEnd]. destruct (JsText.trimEnd s) as [|k kept] eqn:Hk.
  - destruct (JsText.is_white_space d) eqn:E.
    + exists (d :: trail). simpl in Hs. split; [simpl; now rewrite <- Hs|].
      simpl. now rewrite E.
    + exists trail. simpl in Hs. split; [simpl; now rewrite <- Hs|assumption].
  - exists trail. split; [|assumption]. simpl. f_equal. exact Hs.
Qed.

(** A blank comment sends nothing and changes nothing.  A comment that
    is sent belongs to the page's document and the signed-in user and is
    the input without the white space at its two ends: it is not empty,
    it neither starts nor ends with white space, and the input is it
    between two runs of white space. *)
Lemma addComment_sends_trimmed inserted id uid box :
  (JsText.blank (newComment box) = true ->
   addComment inserted id uid box = mkResult box [] [] None false) /\
  (forall d u text,
     In (insert_comment d u text) (calls (addComment inserted id uid box)) ->
     d = id /\ u = uid /\ text <> [] /\
     (forall c, hd_error text = Some c -> JsText.is_white_space c = false) /\
     (forall c, JsText.last_unit text = Some c -> JsText.is_white_space c = false) /\
     exists lead trail,
       newComment box = (lead ++ text ++ trail)%list /\
       JsText.blank lead = true /\ JsText.blank trail = true).
Proof.
  unfold addComment. cbv zeta. rewrite trim_blank. split.
  - intros Hb. now rewrite Hb.
  - intros d u text Hin.
    destruct (JsText.blank (newComment box)) eqn:Hb; cbn [negb] in Hin;
      [destruct Hin|].
    assert (Hcall : insert_comment d u text
                    = insert_comment id uid (JsText.trim (newComment box))).
    { destruct inserted; simpl in Hin.
      - destruct Hin as [H|[H|[]]]; [now symmetry|discriminate].
      - destruct Hin as [H|[]]. now symmetry. }
    injection Hcall as -> -> ->.
    split; [reflexivity|]. split; [reflexivity|]. split; [|split; [|split]].
    + intros Ht. pose proof (trim_blank (newComment box)) as Htb.
      rewrite Ht, Hb in Htb. discriminate.
    + intros c Hc. unfold JsText.trim in Hc.
      apply trimEnd_first in Hc. now apply trimStart_first in Hc.
    + intros c Hc. unfold JsText.trim in Hc. now apply trimEnd_last in Hc.
    + destruct (trimStart_split (newComment box)) as [lead [Hl Hlb]].
      destruct (trimEnd_split (JsText.trimStart (newComment box))) as [trail [Ht Htb]].
      exists lead, trail. split; [|now split].
      unfold JsText.trim. now rewrite <- Ht.
Qed.

Lemma addComment_sends_trimmed_witness :
  calls (addComment (Some 21%N) 10 3 spaced_comment)
  = [insert_comment 10 3 (JsText.of_string "looks fine");
     insert_activity 10 3 "comment_added" "Added a comment"] /\
  JsText.of_string "looks fine" <> [].
Proof.
  split; [reflexivity|].
  destruct (@addComment_sends_trimmed (Some 21%N) 10 3 spaced_comment) as [_ H].
  exact (proj1 (proj2 (proj2 (H 10%N 3%N (JsText.of_string "looks fine")
                                (or_introl eq_refl))))).
Defined.

(** *** Deleting through the page *)

(** Pressing delete as somebody the policy admits, and confirming, does
    not delete the document: the store aborts the delete of its row, the
    page reports the failure and stays where it is.  But the requests
    sent before that one have been carried out: every signatory of the
    document is gone, and so is every comment on it that the user may
    delete. *)
Lemma page_deletion_keeps_document a id st t d :
  In d (Sql.documents (Store.base t)) ->
  doc_id d = id ->
  Store.may_modify_document (Store.base t) (Some a) d = true ->
  let r := perform (Some a)
             (calls (handleDeleteDocument false true (Some "DELETE") true id st)) t in
  snd r = true /\
  feedback (handleDeleteDocument false true (Some "DELETE") (snd r) id st)
  = [said_error "Failed to delete document"] /\
  navigated (handleDeleteDocument false true (Some "DELETE") (snd r) id st) = None /\
  Sql.documents (Store.base (fst r)) = Sql.documents (Store.base t) /\
  Forall (fun sg => Store.refers_to id (sig_document_id sg) = false)
    (Store.document_signatories (fst r)) /\
  Forall (fun c => Store.refers_to id (comment_document_id c) = false \/
                   Store.may_delete_comment (Store.base t) (Some a) c = false)
    (Sql.document_comments (Store.base (fst r))).
Proof.
  intros Hd Hid Hmay r.
  assert (Hperform :
    r = perform (Some a) [delete_document id]
          (Store.delete_signatories (Some a) id
             (Store.delete_activity (Some a) id (Store.delete_comments (Some a) id t)))).
  { unfold r, handleDeleteDocument. cbn [negb String.eqb Ascii.eqb Bool.eqb].
    destruct (file_url (document st)) as [[|c rest]|]; reflexivity. }
  set (t2 := Store.delete_signatories _ _ _) in Hperform.
  assert (Hdocs : Sql.documents (Store.base t2) = Sql.documents (Store.base t))
    by reflexivity.
  assert (Hmay2 : Store.may_modify_document (Store.base t2) (Some a) d = true)
    by exact Hmay.
  assert (Hraise : Store.delete_document (Some a) id t2 = Sql.Raise Sql.srf_in_where).
  { apply (proj1 (Store_delete_document_raises (Some a) id t2) d);
      [now rewrite Hdocs|assumption|assumption]. }
  cbn [perform] in Hperform. rewrite Hraise in Hperform. cbn [fst] in Hperform.
  rewrite Hperform. cbn [fst snd].
  split; [reflexivity|]. split; [reflexivity|]. split; [reflexivity|].
  split; [reflexivity|]. split.
  - apply Forall_forall. intros sg Hsg. unfold t2 in Hsg. simpl in Hsg.
    apply filter_In in Hsg. destruct Hsg as [_ Hkept].
    destruct (Store.refers_to id (sig_document_id sg)) eqn:Href; [|reflexivity].
    exfalso. cbn [andb] in Hkept. apply negb_true_iff in Hkept.
    assert (Hman : Store.may_manage_signatory
                     (Store.base (Store.delete_activity (Some a) id
                                    (Store.delete_comments (Some a) id t)))
                     (Some a) sg = true).
    { apply existsb_exists. exists d. split; [exact Hd|].
      unfold Store.refers_to in Href.
      destruct (sig_document_id sg) as [x|]; [|discriminate].
      cbn [Sql.sql_eq Sql.is_true] in Href.
      destruct (N.eqb_spec x id) as [E|]; [|discriminate].
      rewrite Hid, E. cbn [Sql.sql_eq]. rewrite N.eqb_refl.
      unfold Store.may_modify_document in Hmay.
      replace (Store.is_admin _ (Some a))
        with (Store.is_admin (Store.base t) (Some a)) by reflexivity.
      destruct (created_by d) as [c|]; cbn [Sql.sql_eq] in Hmay |- *.
      - rewrite (N.eqb_sym c a).
        destruct (N.eqb a c), (Store.is_admin (Store.base t) (Some a));
          simpl in Hmay |- *; congruence.
      - destruct (Store.is_admin (Store.base t) (Some a));
          simpl in Hmay |- *; congruence. }
    exact (eq_true_false_abs _ Hman Hkept).
  - apply Forall_forall. intros c Hc. unfold t2 in Hc. simpl in Hc.
    apply filter_In in Hc. destruct Hc as [_ Hkept].
    apply negb_true_iff, andb_false_iff in Hkept. exact Hkept.
Qed.

Lemma page_deletion_keeps_document_witness :
  snd (perform (Some 2%N)
         (calls (handleDeleteDocument false true (Some "DELETE") true 10 budget_page))
         Store.club_tables) = true /\
  Store.document_signatories
    (fst (perform (Some 2%N)
            (calls (handleDeleteDocument false true (Some "DELETE") true 10 budget_page))
            Store.club_tables)) = [].
Proof.
  split; [|reflexivity].
  exact (proj1 (@page_deletion_keeps_document 2 10 budget_page Store.club_tables
                  (Sql.budget_request (Some true)) (or_introl eq_refl) eq_refl eq_refl)).
Defined.

End DocumentPageFacts.

(** ** The dashboard *)
Section DashboardFacts.
Import Dashboard.
Local Open Scope string_scope.

Lemma has_status_cases d :
  has_status "pending" d = match status d with pending => true | _ => false end /\
  has_status "in_progress" d = match status d with in_progress => true | _ => false end /\
  has_status "completed" d = match status d with completed => true | _ => false end /\
  has_status "rejected" d = match status d with rejected => true | _ => false end.
Proof. unfold has_status. destruct (status d); repeat split; reflexivity. Qed.

Lemma status_count (docs : list Document) :
  List.length (filter (has_status "pending") docs)
  + List.length (filter (has_status "in_progress") docs)
  + List.length (filter (has_status "completed") docs)
  + List.length (filter (has_status "rejected") docs)
  = List.length docs.
Proof.
  induction docs as [|d docs IH]; [reflexivity|].
  destruct (has_status_cases d) as [H1 [H2 [H3 H4]]].
  cbn [filter]. rewrite H1, H2, H3, H4.
  destruct (status d); cbn [List.length]; lia.
Qed.

(** The three counters of the tiles never exceed the total, and add up
    to it exactly when no document is rejected: a rejected document is
    counted in the total only. *)
Lemma stats_add_up (documentsData : list Document) :
  stat_pending (stats_of documentsData) + stat_inProgress (stats_of documentsData)
  + stat_completed (stats_of documentsData) <= stat_total (stats_of documentsData) /\
  (stat_pending (stats_of documentsData) + stat_inProgress (stats_of documentsData)
   + stat_completed (stats_of documentsData) = stat_total (stats_of documentsData)
   <-> Forall (fun d => status d <> rejected) documentsData).
Proof.
  pose proof (status_count documentsData) as H. unfold stats_of. simpl.
  split; [lia|].
  assert (Hrej : List.length (filter (has_status "rejected") documentsData) = 0
                 <-> Forall (fun d => status d <> rejected) documentsData).
  { clear H. induction documentsData as [|d l IH].
    - simpl. split; [constructor|reflexivity].
    - destruct (has_status_cases d) as [_ [_ [_ H4]]].
      cbn [filter]. rewrite H4. rewrite Forall_cons_iff, <- IH.
      destruct (status d); cbn [List.length]; split.
      all: try (intros H; split; [discriminate|exact H]).
      all: try (intros [_ H]; exact H).
      + discriminate.
      + intros [H _]. congruence. }
  rewrite <- Hrej. lia.
Qed.

(** The cards a tab lists are as many as the number the tab shows,
    when it shows one; the In Progress tab, whose key is not a name of
    the counters, shows none.  The All tab lists every document. *)
Lemma tab_count_is_list_length (documents : list Document) :
  (forall key n, In key tab_keys ->
     tab_count key (stats_of documents) = Some n ->
     n = List.length (filteredDocuments key documents)) /\
  tab_count "in_progress" (stats_of documents) = None /\
  List.length (filteredDocuments "in_progress" documents)
  = stat_inProgress (stats_of documents) /\
  filteredDocuments "all" documents = documents.
Proof.
  split; [|split; [reflexivity|split; [reflexivity|]]].
  - intros key n Hkey.
    destruct Hkey as [<-|[<-|[<-|[<-|[]]]]]; cbv [tab_count stats_get];
      cbn [String.eqb Ascii.eqb Bool.eqb]; try discriminate; intros [= <-].
    + unfold filteredDocuments. cbn [String.eqb Ascii.eqb Bool.eqb stats_of stat_total].
      f_equal. symmetry. apply forallb_filter_id, forallb_forall. reflexivity.
    + reflexivity.
    + reflexivity.
  - unfold filteredDocuments. cbn [String.eqb Ascii.eqb Bool.eqb].
    apply forallb_filter_id, forallb_forall. reflexivity.
Qed.

Lemma stats_add_up_witness :
  stat_pending (stats_of [Sql.budget_request None])
  + stat_inProgress (stats_of [Sql.budget_request None])
  + stat_completed (stats_of [Sql.budget_request None])
  = stat_total (stats_of [Sql.budget_request None]).
Proof.
  apply (proj2 (@stats_add_up [Sql.budget_request None])).
  repeat constructor. discriminate.
Defined.

Lemma tab_count_is_list_length_witness :
  1 = List.length (filteredDocuments "pending" [Sql.budget_request None]).
Proof.
  apply (proj1 (@tab_count_is_list_length [Sql.budget_request None]) "pending" 1).
  - simpl. tauto.
  - reflexivity.
Defined.

End DashboardFacts.

(** ** The notification bell and the store *)
Section DropdownFacts.
Import NotificationStore Dropdown.
Local Open Scope Z_scope.

Lemma find_by_id n l :
  NoDup (map id l) -> In n l -> find (fun m => N.eqb (id m) (id n)) l = Some n.
Proof.
  induction l as [|x l IH]; simpl; [tauto|].
  intros Hnd Hin. inversion Hnd as [|? ? Hni Hnd']; subst.
  destruct Hin as [->|Hin]; [now rewrite N.eqb_refl|].
  destruct (N.eqb_spec (id x) (id n)) as [E|_]; [|now apply IH].
  exfalso. apply Hni. rewrite E. now apply in_map.
Qed.

(** A click on a notification of the list keeps the counter equal to
    the number of cached unread notifications: the bell marks read only
    what it shows as unread. *)
Lemma handleNotificationClick_reconciled fault n w :
  reconciled w ->
  NoDup (map id (notifications w)) ->
  In n (notifications w) ->
  reconciled (fst (fst (handleNotificationClick fault n w))).
Proof.
  intros Hr Hnd Hin. unfold handleNotificationClick. cbn [fst].
  destruct (read n) eqn:Hread; cbn [negb]; [assumption|].
  apply (@markAsRead_unread_reconciled fault (id n) n w); try assumption.
  now apply find_by_id.
Qed.

Lemma handleNotificationClick_reconciled_witness :
  reconciled (two_notes false) /\
  reconciled (fst (fst (handleNotificationClick false (note1 false) (two_notes false)))).
Proof.
  split; [reflexivity|].
  apply handleNotificationClick_reconciled.
  - reflexivity.
  - simpl. repeat constructor; simpl; intuition discriminate.
  - simpl. tauto.
Defined.

(** A reload, marking everything read and clearing everything bring the
    counter back in line with the cache whatever it was before. *)
Lemma drift_is_repaired w data :
  user w <> None ->
  reconciled (loadNotifications (answered data) w) /\
  reconciled (markAllAsRead false w) /\
  reconciled (clearAllNotifications false w) /\
  unreadCount (markAllAsRead false w) = 0 /\
  unreadCount (clearAllNotifications false w) = 0.
Proof.
  intros Hu. unfold reconciled, loadNotifications, markAllAsRead, clearAllNotifications.
  destruct (user w) as [uid|]; [|congruence]. simpl.
  repeat split. now rewrite unread_in_all_read.
Qed.

Lemma drift_is_repaired_witness :
  ~ reconciled (mkWorld [] (Some 7%N) [note2] 5) /\
  reconciled (loadNotifications (answered (Some [note2]))
                (mkWorld [] (Some 7%N) [note2] 5)).
Proof.
  split; [unfold reconciled; simpl; discriminate|].
  apply (@drift_is_repaired (mkWorld [] (Some 7%N) [note2] 5) (Some [note2])).
  discriminate.
Defined.

End DropdownFacts.

(** ** Asking for permission *)
Section PermissionFacts.
Import Permission.
Local Open Scope string_scope.

(** The function answers true exactly when notifications are supported
    and the permission, asked for only while it is still undecided, is
    granted; in every other case the stored subscriptions are not
    touched.  An answer of true says nothing about the subscription: it
    is given, with its message, even when the set-up has failed. *)
Lemma requestNotificationPermission_result
    supported current answer registered user subscribed new_id p :
  let r := requestNotificationPermission supported current answer registered user
             subscribed new_id p in
  let permission := match current with default => answer | _ => current end in
  (snd r = true <-> supported = true /\ permission = granted) /\
  (snd r = false ->
   Push.push_subscriptions (world (fst r)) = Push.push_subscriptions (world p) /\
   Push.pushSubscription (world (fst r)) = Push.pushSubscription (world p)) /\
  (snd r = true ->
   last (Push.toasts (world (fst r))) "" = "Notifications enabled!" /\
   notificationPermission (fst r) = granted) /\
  (current <> default ->
   r = requestNotificationPermission supported current default registered user
         subscribed new_id p).
Proof.
  cbv zeta. unfold requestNotificationPermission.
  destruct supported; cbn [negb].
  - destruct current, answer; cbn [fst snd world notificationPermission say
      Push.push_subscriptions Push.pushSubscription Push.toasts];
      repeat split; try discriminate; try congruence; try tauto;
      try (intros [_ H]; discriminate);
      try (intros _; apply last_last); try apply last_last.
  - cbn [fst snd world say Push.push_subscriptions Push.pushSubscription].
    repeat split; try discriminate; try tauto; try (intros [H _]; discriminate).
Qed.

Lemma requestNotificationPermission_result_witness :
  snd (requestNotificationPermission true default granted true (Some 7%N)
         (Some (Push.mkBrowserSubscription Push.endpoint "k2" "a2")) 101
         (mkProvider Push.first_call default)) = true /\
  Push.push_subscriptions
    (world (fst (requestNotificationPermission true denied granted true (Some 7%N)
                   (Some (Push.mkBrowserSubscription Push.endpoint "k2" "a2")) 101
                   (mkProvider Push.first_call default))))
  = Push.push_subscriptions Push.first_call.
Proof.
  split.
  - apply (proj1 (@requestNotificationPermission_result true default granted true
                    (Some 7%N)
                    (Some (Push.mkBrowserSubscription Push.endpoint "k2" "a2")) 101
                    (mkProvider Push.first_call default))).
    split; reflexivity.
  - apply (proj1 (proj2 (@requestNotificationPermission_result true denied granted true
                           (Some 7%N)
                           (Some (Push.mkBrowserSubscription Push.endpoint "k2" "a2"))
                           101 (mkProvider Push.first_call default)))).
    reflexivity.
Defined.

End PermissionFacts.

(** ** The creation page *)
Section CreationFacts.
Import CreateDocument SignatoryForm.
Local Open Scope string_scope.

Lemma length_remove_at {A} (index : nat) (l : list A) :
  List.length l - 1 <= List.length (remove_at index l).
Proof.
  revert index. induction l as [|x l IH]; intros index; [simpl; lia|].
  destruct index as [|i]; cbn [remove_at List.length]; [lia|].
  specialize (IH i). lia.
Qed.

(** Whatever is clicked, in whatever order, the form keeps at least one
    signatory entry. *)
Lemma signatory_entries_never_empty (clicks : list Click) fields :
  fields <> [] -> fold_left (fun f c => click c f) clicks fields <> [].
Proof.
  revert fields. induction clicks as [|c clicks IH]; intros fields Hne; [assumption|].
  cbn [fold_left]. apply IH. destruct c as [|index]; cbn [click].
  - unfold addSignatory. destruct fields; discriminate.
  - unfold removeSignatory.
    destruct (Nat.ltb_spec 1 (List.length fields)) as [Hlt|_]; cbn [fst]; [|assumption].
    pose proof (length_remove_at index fields) as Hlen.
    destruct (remove_at index fields); [simpl in Hlen; lia|discriminate].
Qed.

Lemma signatory_entries_never_empty_witness :
  fold_left (fun f c => click c f) [remove 0; add; remove 1; remove 0]
    [mkSignatoryFields [] "" "" "" 0] <> [].
Proof. apply signatory_entries_never_empty. discriminate. Defined.

Lemma contains_app c s t :
  JsString.contains c (s ++ t) = JsString.contains c s || JsString.contains c t.
Proof.
  induction s as [|d s IH]; [reflexivity|].
  cbn [append JsString.contains]. now rewrite IH, orb_assoc.
Qed.

Lemma last_segment_no_dot current s :
  JsString.contains "."%char current = false ->
  JsString.contains "."%char (last_segment current s) = false.
Proof.
  revert current. induction s as [|c s IH]; intros current Hc; [exact Hc|].
  cbn [last_segment]. destruct (Ascii.eqb c ".") eqn:E; apply IH; [reflexivity|].
  rewrite contains_app, Hc. cbn [JsString.contains orb].
  now rewrite Ascii.eqb_sym, E.
Qed.

Lemma append_assoc (a b c : string) : ((a ++ b) ++ c = a ++ (b ++ c)).
Proof. induction a as [|x a IH]; [reflexivity|]. cbn [append]. now rewrite IH. Qed.

Lemma append_nil_right (s : string) : s ++ "" = s.
Proof. induction s as [|x s IH]; [reflexivity|]. cbn [append]. now rewrite IH. Qed.

(** split('.').pop(): all of a name without a dot, and otherwise what
    follows a dot of the name. *)
Lemma last_segment_after_dot current s :
  (JsString.contains "."%char s = false /\ last_segment current s = current ++ s) \/
  (exists before, current ++ s = before ++ "." ++ last_segment current s).
Proof.
  revert current. induction s as [|c s IH]; intros current.
  - left. split; [reflexivity|]. cbn [last_segment]. now rewrite append_nil_right.
  - cbn [last_segment]. destruct (Ascii.eqb_spec c ".") as [->|Hc].
    + right. destruct (IH "") as [[_ Hall]|[before Hb]].
      * exists current. now rewrite Hall.
      * exists (current ++ String "." before). cbn [append] in Hb.
        rewrite append_assoc. cbn [append]. now rewrite <- Hb.
    + destruct (IH (current ++ String c "")) as [[Hno Hall]|[before Hb]].
      * left. split.
        -- cbn [JsString.contains]. rewrite Hno, orb_false_r.
           destruct (Ascii.eqb_spec "." c); [congruence|reflexivity].
        -- rewrite Hall, append_assoc. reflexivity.
      * right. exists before. rewrite <- Hb, append_assoc. reflexivity.
Qed.

(** Nothing is sent to file storage unless the file is within 10 MiB
    and of an allowed type; it then goes to the user's own folder, under
    the extension of the file's name: what follows its last dot, or the
    whole name when it has no dot. *)
Lemma upload_only_valid file user_id now upload_error publicUrl st path :
  In (storage_upload path)
    (snd (handleFileUpload (Some file) user_id now upload_error publicUrl st)) ->
  (size file <= max_size)%Z /\
  In (type file) allowedTypes /\
  owner path = user_id /\
  stamp path = now /\
  JsString.contains "."%char (extension path) = false /\
  ((JsString.contains "."%char (name file) = false /\ extension path = name file) \/
   (exists before, name file = before ++ "." ++ extension path)).
Proof.
  unfold handleFileUpload.
  destruct (Z.gtb_spec (size file) max_size) as [Hbig|Hsmall].
  - intros [H|[]]. discriminate.
  - destruct (existsb (String.eqb (type file)) allowedTypes) eqn:Hex; cbn [negb].
    + intros Hin.
      assert (Hpath : path = mkStoragePath user_id now (last_segment "" (name file))).
      { destruct upload_error; simpl in Hin;
          destruct Hin as [H|[H|[]]]; try discriminate; now injection H. }
      subst path. cbn [owner extension stamp]. split; [assumption|]. split.
      * apply existsb_exists in Hex. destruct Hex as [t [Hin' Ht]].
        apply String.eqb_eq in Ht. now subst.
      * split; [reflexivity|]. split; [reflexivity|].
        split; [now apply last_segment_no_dot|].
        apply (last_segment_after_dot "" (name file)).
    + intros [H|[]]. discriminate.
Qed.

Lemma upload_only_valid_witness :
  In (storage_upload (mkStoragePath 1 5 "pdf"))
    (snd (handleFileUpload (Some (mkFile 2048 "application/pdf" "budget.final.pdf"))
            1 5 None "https://files.example/1/5.pdf" (mkState None))) /\
  (2048 <= max_size)%Z.
Proof.
  assert (H : In (storage_upload (mkStoragePath 1 5 "pdf"))
                (snd (handleFileUpload
                        (Some (mkFile 2048 "application/pdf" "budget.final.pdf"))
                        1 5 None "https://files.example/1/5.pdf" (mkState None))))
    by (simpl; tauto).
  split; [exact H|].
  exact (proj1 (@upload_only_valid _ _ _ _ _ _ _ H)).
Defined.

Lemma indexed_order {A} (f : A -> nat -> SignatoryData) (l : list A) start :
  (forall x i, sd_order_index (f x i) = i) ->
  map sd_order_index (indexed f start l) = seq start (List.length l).
Proof.
  intros Hf. revert start. induction l as [|x l IH]; intros start; [reflexivity|].
  cbn [indexed map List.length seq]. now rewrite Hf, IH.
Qed.

Lemma indexed_map {A B C} (f : A -> nat -> B) (g : B -> C) (h : A -> C) l start :
  (forall x i, g (f x i) = h x) ->
  map g (indexed f start l) = map h l.
Proof.
  intros Hf. revert start. induction l as [|x l IH]; intros start; [reflexivity|].
  cbn [indexed map]. now rewrite Hf, IH.
Qed.

(** The signatory rows a submission inserts are those of the entries
    whose name is not white space throughout, in form order, numbered
    0, 1, 2, ... anew, none of them signed, all of them for the new
    document. *)
Lemma onSubmit_signatory_rows data user_id document_insert signatories_error st rows :
  In (insert_signatories rows)
    (snd (onSubmit data user_id document_insert signatories_error st)) ->
  rows <> [] /\
  map sd_name rows
  = filter (fun n => negb (JsText.blank n)) (map f_name (d_signatories data)) /\
  map sd_order_index rows = seq 0 (List.length rows) /\
  Forall (fun r => sd_is_signed r = false /\ document_insert = inl (sd_document_id r))
    rows.
Proof.
  unfold onSubmit.
  destruct (uploadedFile st) as [uploaded|]; [|intros [H|[]]; discriminate].
  destruct document_insert as [document_id|msg];
    [|intros [H|[H|[]]]; discriminate].
  set (kept := filter (fun sg => JsText.truthy (JsText.trim (f_name sg)))
                 (d_signatories data)).
  set (f := fun sg index => mkSignatoryData document_id (f_name sg)
                              (or_null (f_position sg)) (or_null (f_email sg))
                              (or_null (f_phone sg)) index false).
  set (signatoryData := indexed f 0 kept).
  intros Hin.
  assert (Hrows : rows = signatoryData /\ signatoryData <> []).
  { destruct (Nat.ltb 0 (List.length (d_signatories data))
              && Nat.ltb 0 (List.length signatoryData)) eqn:Hcond; cbn [app] in Hin.
    - apply andb_true_iff in Hcond. destruct Hcond as [_ Hpos].
      apply Nat.ltb_lt in Hpos.
      assert (Hne : signatoryData <> []) by (intros E; rewrite E in Hpos; simpl in Hpos; lia).
      destruct signatories_error; simpl in Hin;
        destruct Hin as [H|[H|Hin]]; try discriminate;
        try (injection H as <-; now split);
        repeat (destruct Hin as [H|Hin]; try discriminate); destruct Hin.
    - simpl in Hin. repeat (destruct Hin as [H|Hin]; try discriminate). destruct Hin. }
  destruct Hrows as [-> Hne]. split; [assumption|]. split; [|split].
  - unfold signatoryData. rewrite (indexed_map f sd_name f_name) by reflexivity.
    unfold kept.
    rewrite <- (filter_map_comm f_name (fun n => negb (JsText.blank n))).
    f_equal. apply filter_ext. intros sg. apply trim_blank.
  - unfold signatoryData at 1. rewrite (indexed_order f) by reflexivity.
    f_equal. unfold signatoryData. clear.
    generalize 0. induction kept as [|x l IH]; intros n; [reflexivity|].
    cbn [indexed List.length]. now rewrite (IH (S n)).
  - apply Forall_forall. intros r Hr. unfold signatoryData in Hr. clear - Hr.
    revert Hr. generalize 0. induction kept as [|x l IH]; intros n Hr; [destruct Hr|].
    cbn [indexed] in Hr. destruct Hr as [<-|Hr]; [split; reflexivity|].
    now apply (IH (S n)).
Qed.

Lemma onSubmit_signatory_rows_witness :
  map sd_order_index
    [mkSignatoryData 10 (JsText.of_string "Dean") None None None 0 false;
     mkSignatoryData 10 (JsText.of_string "Treasurer") None None None 1 false]
  = seq 0 2.
Proof.
  assert (H : In (insert_signatories
                    [mkSignatoryData 10 (JsText.of_string "Dean") None None None 0 false;
                     mkSignatoryData 10 (JsText.of_string "Treasurer") None None None 1
                       false])
                (snd (onSubmit three_entries 1 (inl 10%N) None (mkState (Some budget_pdf)))))
    by (simpl; tauto).
  exact (proj1 (proj2 (proj2 (@onSubmit_signatory_rows _ _ _ _ _ _ H)))).
Defined.

(** When the insert of the signatories fails, the document row has
    already been inserted and stays: the failure is reported, and
    neither the activity record nor the navigation follows. *)
Lemma onSubmit_signatories_fail data user_id document_id msg uploaded :
  (exists sg, In sg (d_signatories data) /\ JsText.blank (f_name sg) = false) ->
  exists rows,
    snd (onSubmit data user_id (inl document_id) (Some msg) (mkState (Some uploaded)))
    = [insert_document
         (mkDocumentData (d_name data) (d_description data) (up_url uploaded)
            (up_name uploaded) user_id (d_requires_admin_approval data) pending);
       insert_signatories rows;
       toast_error ("Failed to create document tracker: " ++ msg)] /\
    rows <> [].
Proof.
  intros [sg [Hin Hsg]]. unfold onSubmit. cbn [uploadedFile].
  set (kept := filter (fun sg => JsText.truthy (JsText.trim (f_name sg)))
                 (d_signatories data)).
  assert (Hkept : In sg kept)
    by (apply filter_In; split; [assumption|now rewrite trim_blank, Hsg]).
  assert (Hd : Nat.ltb 0 (List.length (d_signatories data)) = true).
  { apply Nat.ltb_lt. destruct (d_signatories data); [destruct Hin|simpl; lia]. }
  rewrite Hd. cbn [andb].
  match goal with |- context [indexed ?f 0 kept] => set (signatoryData := indexed f 0 kept) end.
  assert (Hs : signatoryData <> []).
  { unfold signatoryData. destruct kept; [destruct Hkept|discriminate]. }
  assert (Hl : Nat.ltb 0 (List.length signatoryData) = true).
  { apply Nat.ltb_lt. destruct signatoryData; [congruence|simpl; lia]. }
  rewrite Hl. cbn [app snd]. exists signatoryData. split; [reflexivity|assumption].
Qed.

Lemma onSubmit_signatories_fail_witness :
  exists rows,
    snd (onSubmit one_entry 1 (inl 10%N) (Some "timeout") (mkState (Some budget_pdf)))
    = [insert_document
         (mkDocumentData (d_name one_entry) (d_description one_entry)
            (up_url budget_pdf) (up_name budget_pdf) 1
            (d_requires_admin_approval one_entry) pending);
       insert_signatories rows;
       toast_error ("Failed to create document tracker: " ++ "timeout")] /\
    rows <> [].
Proof.
  apply onSubmit_signatories_fail.
  exists (mkSignatoryFields (JsText.of_string "Dean") "" "" "" 0).
  split; [simpl; tauto|reflexivity].
Defined.

End CreationFacts.

(** ** Base64 *)
Section Base64Facts.
Import Base64.
Local Open Scope string_scope.

Lemma string_ind3 (P : string -> Prop) :
  P EmptyString ->
  (forall a, P (String a EmptyString)) ->
  (forall a b, P (String a (String b EmptyString))) ->
  (forall a b c rest, P rest -> P (String a (String b (String c rest)))) ->
  forall s, P s.
Proof.
  intros H0 H1 H2 H3 s.
  enough (H : P s /\ (forall a, P (String a s)) /\ (forall a b, P (String a (String b s))))
    by apply H.
  induction s as [|c s [IH0 [IH1 IH2]]].
  - auto.
  - split; [apply IH1|]. split; [intros a; apply IH2|]. intros a b. now apply H3.
Qed.

Lemma digits_ok : forallb (fun n => digit_ok (N.of_nat n)) (seq 0 64) = true.
Proof. vm_compute. reflexivity. Qed.

Lemma digit_facts n :
  (n < 64)%N ->
  value (digit n) = Some n /\ is_whitespace (digit n) = false /\
  Ascii.eqb (digit n) "=" = false /\ Ascii.eqb (digit n) "-" = false /\
  Ascii.eqb (digit n) "_" = false.
Proof.
  intros Hn. pose proof digits_ok as H. rewrite forallb_forall in H.
  specialize (H (N.to_nat n)). rewrite N2Nat.id in H.
  assert (Hin : In (N.to_nat n) (seq 0 64)) by (apply in_seq; lia).
  specialize (H Hin). unfold digit_ok in H.
  repeat (apply andb_true_iff in H; destruct H as [H ?]).
  repeat match goal with Hx : negb _ = true |- _ => apply negb_true_iff in Hx end.
  destruct (value (digit n)) as [m|]; [|discriminate].
  apply N.eqb_eq in H. subst. auto.
Qed.

Lemma sextets_bounded s : Forall (fun n => (n < 64)%N) (sextets s).
Proof.
  induction s as [|a|a b|a b c rest IH] using string_ind3; cbn [sextets]; cbv zeta;
    repeat constructor; try assumption;
    repeat match goal with
           | |- context [N_of_ascii ?x] =>
               let H := fresh in pose proof (N_ascii_bounded x) as H;
               generalize dependent (N_of_ascii x); intros
           end;
    zify; Z.to_euclidean_division_equations; lia.
Qed.

Lemma btoa_split s : btoa s = text_of (sextets s) ++ padding_of s.
Proof.
  induction s as [|a|a b|a b c rest IH] using string_ind3;
    cbn [btoa sextets padding_of text_of append]; cbv zeta;
    cbn [text_of append]; try reflexivity.
  now rewrite IH.
Qed.

Lemma bytes_back (x y z : N) :
  (x < 256 -> y < 256 -> z < 256 ->
   x / 4 * 4 + (x mod 4 * 16) / 16 = x /\
   x / 4 * 4 + (x mod 4 * 16 + y / 16) / 16 = x /\
   (x mod 4 * 16 + y / 16) mod 16 * 16 + (y mod 16 * 4) / 4 = y /\
   (x mod 4 * 16 + y / 16) mod 16 * 16 + (y mod 16 * 4 + z / 64) / 4 = y /\
   (y mod 16 * 4 + z / 64) mod 4 * 64 + z mod 64 = z)%N.
Proof.
  intros. repeat split; zify; Z.to_euclidean_division_equations; lia.
Qed.

Lemma decode_sextets s : decode (sextets s) = s.
Proof.
  induction s as [|a|a b|a b c rest IH] using string_ind3; cbn [sextets decode];
    cbv zeta; cbn [decode]; try reflexivity.
  - destruct (bytes_back (N_ascii_bounded a) (N_ascii_bounded a) (N_ascii_bounded a))
      as [H1 _].
    now rewrite H1, ascii_N_embedding.
  - destruct (bytes_back (N_ascii_bounded a) (N_ascii_bounded b) (N_ascii_bounded b))
      as [_ [H1 [H2 _]]].
    now rewrite H1, H2, !ascii_N_embedding.
  - destruct (bytes_back (N_ascii_bounded a) (N_ascii_bounded b) (N_ascii_bounded c))
      as [_ [H1 [_ [H2 H3]]]].
    now rewrite H1, H2, H3, !ascii_N_embedding, IH.
Qed.

Lemma values_text_of v :
  Forall (fun n => (n < 64)%N) v -> values (text_of v) = Some v.
Proof.
  induction 1 as [|n v Hn _ IH]; [reflexivity|]. cbn [text_of values].
  destruct (digit_facts Hn) as [Hv _]. now rewrite Hv, IH.
Qed.

Lemma every_text_of (p : ascii -> bool) v :
  Forall (fun n => p (digit n) = true) v -> every p (text_of v) = true.
Proof.
  induction 1 as [|n v Hn _ IH]; [reflexivity|]. cbn [text_of every]. now rewrite Hn, IH.
Qed.

Lemma every_app p s t : every p (s ++ t) = every p s && every p t.
Proof.
  induction s as [|c s IH]; [reflexivity|]. cbn [append every].
  now rewrite IH, andb_assoc.
Qed.

Lemma without_whitespace_id s :
  every (fun c => negb (is_whitespace c)) s = true -> without_whitespace s = s.
Proof.
  induction s as [|c s IH]; [reflexivity|]. cbn [every without_whitespace].
  intros H. apply andb_true_iff in H. destruct H as [Hc Hs].
  apply negb_true_iff in Hc. now rewrite Hc, IH.
Qed.

Lemma replace_all_id c d s :
  every (fun x => negb (Ascii.eqb x c)) s = true -> replace_all c d s = s.
Proof.
  induction s as [|x s IH]; [reflexivity|]. cbn [every replace_all].
  intros H. apply andb_true_iff in H. destruct H as [Hc Hs].
  apply negb_true_iff in Hc. now rewrite Hc, IH.
Qed.

Lemma drop_last_eq_id s :
  every (fun x => negb (Ascii.eqb x "=")) s = true -> drop_last_eq s = s.
Proof.
  induction s as [|c s IH]; [reflexivity|]. cbn [every].
  intros H. apply andb_true_iff in H. destruct H as [Hc Hs].
  apply negb_true_iff in Hc. cbn [drop_last_eq].
  destruct s as [|d s]; [now rewrite Hc|]. now rewrite IH.
Qed.

Lemma drop_last_eq_snoc s : drop_last_eq (s ++ "=") = s.
Proof.
  induction s as [|c s IH]; [reflexivity|]. cbn [append drop_last_eq].
  destruct (s ++ "=") as [|d t] eqn:E.
  - destruct s; discriminate.
  - now rewrite IH.
Qed.

Lemma length_append s t : String.length (s ++ t) = String.length s + String.length t.
Proof. induction s as [|c s IH]; [reflexivity|]. cbn [append String.length]. now rewrite IH. Qed.

Lemma length_btoa s : String.length (btoa s) mod 4 = 0.
Proof.
  induction s as [|a|a b|a b c rest IH] using string_ind3; try reflexivity.
  cbn [btoa]. cbv zeta. cbn [String.length].
  change (S (S (S (S (String.length (btoa rest))))))
    with (4 + String.length (btoa rest)).
  rewrite Nat.add_comm.
  pose proof (Nat.Div0.mod_add (String.length (btoa rest)) 1 4) as H.
  cbn [Nat.mul Nat.add] in H. now rewrite H.
Qed.

Lemma length_sextets s : List.length (sextets s) mod 4 <> 1.
Proof.
  induction s as [|a|a b|a b c rest IH] using string_ind3;
    try (cbn; discriminate).
  cbn [sextets]. cbv zeta. cbn [List.length].
  change (S (S (S (S (List.length (sextets rest))))))
    with (4 + List.length (sextets rest)).
  rewrite Nat.add_comm.
  pose proof (Nat.Div0.mod_add (List.length (sextets rest)) 1 4) as H.
  cbn [Nat.mul Nat.add] in H. now rewrite H.
Qed.

Lemma length_text_of v : String.length (text_of v) = List.length v.
Proof. induction v as [|n v IH]; [reflexivity|]. cbn. now rewrite IH. Qed.

Lemma padding_cases s :
  padding_of s = "" \/ padding_of s = "=" \/ padding_of s = "==".
Proof.
  induction s as [|a|a b|a b c rest IH] using string_ind3; cbn [padding_of]; auto.
Qed.

Lemma append_nil_r s : s ++ "" = s.
Proof. induction s as [|c s IH]; [reflexivity|]. cbn [append]. now rewrite IH. Qed.

Lemma text_of_every s (p : ascii -> bool) :
  (forall n, (n < 64)%N -> p (digit n) = true) ->
  every p (text_of (sextets s)) = true.
Proof.
  intros Hp. apply every_text_of.
  eapply Forall_impl; [|apply sextets_bounded]. exact Hp.
Qed.

Lemma strip_padding_btoa s : strip_padding (btoa s) = text_of (sextets s).
Proof.
  unfold strip_padding. rewrite length_btoa. cbn [Nat.eqb].
  rewrite btoa_split.
  assert (Hid : drop_last_eq (text_of (sextets s)) = text_of (sextets s)).
  { apply drop_last_eq_id, text_of_every.
    intros n Hn. destruct (digit_facts Hn) as [_ [_ [H _]]]. now rewrite H. }
  destruct (padding_cases s) as [E|[E|E]]; rewrite E.
  - now rewrite append_nil_r, !Hid.
  - now rewrite drop_last_eq_snoc, Hid.
  - change "==" with ("=" ++ "="). rewrite <- append_assoc.
    now rewrite !drop_last_eq_snoc.
Qed.

Lemma btoa_no_whitespace s : without_whitespace (btoa s) = btoa s.
Proof.
  apply without_whitespace_id. rewrite btoa_split, every_app.
  rewrite text_of_every.
  - destruct (padding_cases s) as [E|[E|E]]; rewrite E; reflexivity.
  - intros n Hn. destruct (digit_facts Hn) as [_ [H _]]. now rewrite H.
Qed.

(** [atob] undoes [btoa]. *)
Lemma atob_btoa s : atob (btoa s) = Some s.
Proof.
  unfold atob. rewrite btoa_no_whitespace, strip_padding_btoa, length_text_of.
  destruct (Nat.eqb_spec (List.length (sextets s) mod 4) 1) as [E|_].
  - now apply length_sextets in E.
  - rewrite values_text_of by apply sextets_bounded. now rewrite decode_sextets.
Qed.

Lemma bytes_back_and_forth buffer :
  map byte_of_ascii
    (list_ascii_of_string (string_of_list_ascii (map ascii_of_byte buffer)))
  = buffer.
Proof.
  rewrite list_ascii_of_string_of_list_ascii, map_map.
  rewrite <- (map_id buffer) at 2. apply map_ext. apply byte_of_ascii_of_byte.
Qed.

(** Round trip: what [arrayBufferToBase64] writes, [urlBase64ToUint8Array]
    reads back. *)
Theorem base64_round_trip (buffer : list Byte.byte) :
  urlBase64ToUint8Array (arrayBufferToBase64 buffer) = Some buffer.
Proof.
  unfold urlBase64ToUint8Array, arrayBufferToBase64.
  set (binary := string_of_list_ascii (map ascii_of_byte buffer)).
  rewrite length_btoa. cbn [Nat.sub Nat.modulo repeat_eq].
  change ((4 - 0) mod 4) with 0. cbn [repeat_eq]. rewrite append_nil_r.
  assert (Hno : forall c, c = "-"%char \/ c = "_"%char ->
                every (fun x => negb (Ascii.eqb x c)) (btoa binary) = true).
  { intros c Hc. rewrite btoa_split, every_app, text_of_every.
    - destruct Hc as [-> | ->];
        destruct (padding_cases binary) as [E|[E|E]]; rewrite E; reflexivity.
    - intros n Hn. destruct (digit_facts Hn) as [_ [_ [_ [H1 H2]]]].
      destruct Hc as [-> | ->]; [now rewrite H1|now rewrite H2]. }
  rewrite (replace_all_id "-" "+") by (apply Hno; auto).
  rewrite (replace_all_id "_" "/") by (apply Hno; auto).
  rewrite atob_btoa. unfold binary. now rewrite bytes_back_and_forth.
Qed.

Lemma drop_padding_btoa s : drop_last_eq (drop_last_eq (btoa s)) = text_of (sextets s).
Proof.
  pose proof (strip_padding_btoa s) as H. unfold strip_padding in H.
  now rewrite length_btoa in H.
Qed.

Lemma padding_is_repeat s :
  padding_of s = repeat_eq ((4 - List.length (sextets s) mod 4) mod 4).
Proof.
  induction s as [|a|a b|a b c rest IH] using string_ind3; try reflexivity.
  cbn [padding_of sextets]. cbv zeta. cbn [List.length].
  change (S (S (S (S (List.length (sextets rest))))))
    with (4 + List.length (sextets rest)).
  rewrite Nat.add_comm.
  pose proof (Nat.Div0.mod_add (List.length (sextets rest)) 1 4) as H.
  cbn [Nat.mul Nat.add] in H. now rewrite H.
Qed.

Lemma replace_all_app c d s t :
  replace_all c d (s ++ t) = replace_all c d s ++ replace_all c d t.
Proof.
  induction s as [|x s IH]; [reflexivity|]. cbn [append replace_all]. now rewrite IH.
Qed.

Lemma length_replace_all c d s : String.length (replace_all c d s) = String.length s.
Proof. induction s as [|x s IH]; [reflexivity|]. cbn. now rewrite IH. Qed.

Lemma replace_repeat_eq c d n :
  Ascii.eqb "=" c = false -> replace_all c d (repeat_eq n) = repeat_eq n.
Proof.
  intros H. induction n as [|n IH]; [reflexivity|]. cbn [repeat_eq replace_all].
  now rewrite H, IH.
Qed.

Lemma url_safe_back s :
  every (fun x => negb (Ascii.eqb x "-")) s = true ->
  every (fun x => negb (Ascii.eqb x "_")) s = true ->
  replace_all "_" "/" (replace_all "-" "+" (replace_all "/" "_" (replace_all "+" "-" s)))
  = s.
Proof.
  induction s as [|x s IH]; [reflexivity|]. cbn [every replace_all].
  intros H1 H2. apply andb_true_iff in H1, H2. destruct H1 as [Hx1 Hs1], H2 as [Hx2 Hs2].
  rewrite IH by assumption. f_equal.
  apply negb_true_iff in Hx1, Hx2.
  destruct (Ascii.eqb_spec x "+") as [->|Hp]; [reflexivity|].
  destruct (Ascii.eqb_spec x "/") as [->|Hs]; [reflexivity|].
  now rewrite Hx1, Hx2.
Qed.

(** The URL-safe, unpadded form of what [arrayBufferToBase64] writes is
    read back as the same bytes. *)
Theorem base64_url_safe_round_trip (buffer : list Byte.byte) :
  urlBase64ToUint8Array (url_safe (arrayBufferToBase64 buffer)) = Some buffer.
Proof.
  unfold urlBase64ToUint8Array, arrayBufferToBase64, url_safe.
  set (binary := string_of_list_ascii (map ascii_of_byte buffer)).
  rewrite drop_padding_btoa, !length_replace_all, length_text_of.
  rewrite <- padding_is_repeat.
  rewrite !replace_all_app.
  assert (Hpad : forall c d, Ascii.eqb "=" c = false ->
                 replace_all c d (padding_of binary) = padding_of binary).
  { intros c d Hc. rewrite padding_is_repeat. now apply replace_repeat_eq. }
  rewrite (Hpad "-"%char) by reflexivity. rewrite (Hpad "_"%char) by reflexivity.
  rewrite url_safe_back.
  - rewrite <- btoa_split, atob_btoa. unfold binary. now rewrite bytes_back_and_forth.
  - apply text_of_every. intros n Hn.
    destruct (digit_facts Hn) as [_ [_ [_ [H _]]]]. now rewrite H.
  - apply text_of_every. intros n Hn.
    destruct (digit_facts Hn) as [_ [_ [_ [_ H]]]]. now rewrite H.
Qed.

End Base64Facts.

(** ** The properties above, applied *)
Section Applied.
Local Open Scope string_scope.


(** Deleting the unread notification from the render of the cache. *)
Lemma reconciled_preserved_witness :
  NotificationStore.reconciled
    (NotificationStore.run
       (NotificationStore.DeleteNotification
          (NotificationStore.notifications (NotificationStore.two_notes false))
          false 2%N)
       (NotificationStore.two_notes false)).
Proof.
  apply (@reconciled_preserved
           (NotificationStore.DeleteNotification
              (NotificationStore.notifications (NotificationStore.two_notes false))
              false 2%N)
           (NotificationStore.two_notes false)).
  - reflexivity.
  - simpl. repeat constructor; simpl; intuition discriminate.
  - reflexivity.
Defined.

Lemma getSignatureProgress_below_40_witness :
  DocumentDetails.getSignatureProgress (DocumentDetails.signed_first 1 3)
  = Js.of_int 33.
Proof.
  rewrite (@getSignatureProgress_below_40 (DocumentDetails.signed_first 1 3)).
  - reflexivity.
  - simpl. lia.
Defined.

End Applied.
